(** * Citizen affiliation service: the transfer state machine

    A shallow embedding of the Django services and RabbitMQ consumers of the
    citizen affiliation service:

    - [affiliation/models/citizen.py], [affiliation/models/affiliation.py]
    - [affiliation/signals.py]
    - [affiliation/services/citizen_service.py]
    - [affiliation/services/transfer_service.py]
    - [affiliation/rabbitmq/register_citizen_consumer.py]
    - [affiliation/rabbitmq/unregister_citizen_consumer.py]
    - [affiliation/rabbitmq/documents_ready_consumer.py]
    - [affiliation/api/views.py] (the confirmation callback)

    The database is a finite map from [citizen_id] to a stored row; every
    service method is a function from a world (database and the chronological
    log of its writes and outside calls) to a result and a new world.  What the
    outside answers (the broker, HTTP peers, the clock) is read from an
    environment record, so that every statement quantifies over all answers.

    Citizen ids are strings ([CharField]); every event and peer payload
    carries [int(citizen_id)], so each handler has a path on which that
    conversion raises.  The model keeps these paths: [Py.int] returns [None]
    for [ValueError], and the statements that need an id the conversion
    accepts say so.

    The documents-ready consumer hands [str(idCitizen)] to
    [complete_transfer_after_documents]; the statements on the two events of
    an incoming transfer are about that service method, and
    [handle_documents_ready] models the consumer in front of it.

    Not modelled: column length limits ([max_length]), concurrent handlers,
    log lines and the text of result messages (a tag stands for each message
    template). *)

From Stdlib Require Import ZArith String Ascii Bool List.
From Stdlib Require Import DecimalString DecimalZ DecimalPos.
From stdpp Require Import base option gmap strings list fin_maps.

Local Open Scope string_scope.
Local Open Scope Z_scope.

(** ** Python's [str] on integers and [int] on strings *)

Module Py.

(** [str(z)] for an integer: decimal digits, a leading minus sign for
    negative numbers. *)
Definition str (z : Z) : string := NilZero.string_of_int (Z.to_int z).

Definition is_digit (c : ascii) : bool :=
  let n := nat_of_ascii c in (48 <=? n)%nat && (n <=? 57)%nat.

(** The ASCII characters [int] strips: tab to carriage return, the four
    separators 0x1c-0x1f and the space.  Digits and blanks outside ASCII,
    which Python also accepts, are not modelled: they do not parse here. *)
Definition is_space (c : ascii) : bool :=
  let n := nat_of_ascii c in
  ((9 <=? n)%nat && (n <=? 13)%nat) || ((28 <=? n)%nat && (n <=? 32)%nat).

Fixpoint lstrip (s : string) : string :=
  match s with
  | String c r => if is_space c then lstrip r else s
  | EmptyString => EmptyString
  end.

Fixpoint rstrip (s : string) : string :=
  match s with
  | EmptyString => EmptyString
  | String c r =>
      match rstrip r with
      | EmptyString => if is_space c then EmptyString else String c EmptyString
      | r' => String c r'
      end
  end.

(** The digits of a literal with its underscores removed; an underscore is
    accepted only between two digits.  [prev] tells whether the character
    just read was a digit. *)
Fixpoint join_digits (prev : bool) (s : string) : option string :=
  match s with
  | EmptyString => if prev then Some EmptyString else None
  | String c r =>
      if is_digit c then String c <$> join_digits true r
      else if Ascii.eqb c "_" then (if prev then join_digits false r else None)
      else None
  end.

Definition split_sign (s : string) : bool * string :=
  match s with
  | String c r =>
      if Ascii.eqb c "-" then (true, r)
      else if Ascii.eqb c "+" then (false, r)
      else (false, s)
  | EmptyString => (false, s)
  end.

(** [int(s)] for a string: [None] stands for [ValueError]. *)
Definition int (s : string) : option Z :=
  let '(neg, body) := split_sign (rstrip (lstrip s)) in
  ds ← join_digits false body;
  u ← NilZero.uint_of_string ds;
  Some (if neg then - Z.of_uint u else Z.of_uint u).

Fixpoint all_digits (s : string) : bool :=
  match s with
  | EmptyString => true
  | String c r => is_digit c && all_digits r
  end.

(** Truth value of an optional string: [None] and the empty string are
    false. *)
Definition truthy (s : option string) : bool :=
  match s with
  | None => false
  | Some EmptyString => false
  | Some _ => true
  end.

End Py.


(** ** Data model ([affiliation/models]) *)

(** [Citizen.verification_status]: the three [VERIFICATION_*] constants. *)
Inductive VerificationStatus :=
  | VERIFICATION_PENDING
  | VERIFICATION_VERIFIED
  | VERIFICATION_FAILED.

(** [Affiliation.status]: the four [STATUS_CHOICES] and the three further
    values the services write ("PENDING", "FAILED", "PENDING_DELETION"). *)
Inductive Status :=
  | AFFILIATED
  | TRANSFERRING
  | TRANSFERRED
  | CANCELLED
  | PENDING
  | FAILED
  | PENDING_DELETION.

#[global] Instance VerificationStatus_eq_dec : EqDecision VerificationStatus.
Proof. solve_decision. Defined.

#[global] Instance Status_eq_dec : EqDecision Status.
Proof. solve_decision. Defined.

Record Citizen := mkCitizen {
  citizen_id : string;
  name : string;
  address : string;
  email : string;
  operator_id : string;
  operator_name : string;
  is_registered : bool;
  is_verified : bool;
  verification_status : VerificationStatus;
  pending_deletion : bool;
  verification_message : option string;
  created_at : Z;
  updated_at : Z
}.

Record Affiliation := mkAffiliation {
  aff_operator_id : string;
  aff_operator_name : string;
  status : Status;
  affiliated_at : Z;
  status_changed_at : Z;
  transfer_destination_operator_id : option string;
  transfer_destination_operator_name : option string;
  transfer_destination_api_url : option string;
  notes : option string;
  transfer_source_operator_id : option string;
  transfer_source_operator_name : option string;
  transfer_confirmation_url : option string;
  transfer_started_at : option Z;
  transfer_completed_at : option Z;
  documents_ready : bool
}.

(** A stored citizen with the affiliation that hangs off it.  The
    [OneToOneField(Citizen, on_delete=CASCADE)] of [Affiliation] gives every
    affiliation exactly one citizen row, at most one affiliation per citizen,
    and removes the affiliation with its citizen. *)
Record Row := mkRow {
  citizen : Citizen;
  affiliation : option Affiliation
}.

(** Attribute assignments on a loaded model instance. *)
Definition set_is_registered (b : bool) (c : Citizen) : Citizen :=
  mkCitizen (citizen_id c) (name c) (address c) (email c) (operator_id c)
    (operator_name c) b (is_verified c) (verification_status c)
    (pending_deletion c) (verification_message c) (created_at c) (updated_at c).

Definition set_verification (v : bool) (st : VerificationStatus)
    (msg : option string) (c : Citizen) : Citizen :=
  mkCitizen (citizen_id c) (name c) (address c) (email c) (operator_id c)
    (operator_name c) (is_registered c) v st (pending_deletion c) msg
    (created_at c) (updated_at c).

Definition set_pending_deletion (b : bool) (msg : option string)
    (c : Citizen) : Citizen :=
  mkCitizen (citizen_id c) (name c) (address c) (email c) (operator_id c)
    (operator_name c) (is_registered c) (is_verified c)
    (verification_status c) b msg (created_at c) (updated_at c).

Definition set_updated_at (t : Z) (c : Citizen) : Citizen :=
  mkCitizen (citizen_id c) (name c) (address c) (email c) (operator_id c)
    (operator_name c) (is_registered c) (is_verified c)
    (verification_status c) (pending_deletion c) (verification_message c)
    (created_at c) t.

Definition set_status (s : Status) (a : Affiliation) : Affiliation :=
  mkAffiliation (aff_operator_id a) (aff_operator_name a) s (affiliated_at a)
    (status_changed_at a) (transfer_destination_operator_id a)
    (transfer_destination_operator_name a) (transfer_destination_api_url a)
    (notes a) (transfer_source_operator_id a) (transfer_source_operator_name a)
    (transfer_confirmation_url a) (transfer_started_at a)
    (transfer_completed_at a) (documents_ready a).

Definition set_status_changed_at (t : Z) (a : Affiliation) : Affiliation :=
  mkAffiliation (aff_operator_id a) (aff_operator_name a) (status a)
    (affiliated_at a) t (transfer_destination_operator_id a)
    (transfer_destination_operator_name a) (transfer_destination_api_url a)
    (notes a) (transfer_source_operator_id a) (transfer_source_operator_name a)
    (transfer_confirmation_url a) (transfer_started_at a)
    (transfer_completed_at a) (documents_ready a).

Definition set_destination_operator (oid oname : option string)
    (a : Affiliation) : Affiliation :=
  mkAffiliation (aff_operator_id a) (aff_operator_name a) (status a)
    (affiliated_at a) (status_changed_at a) oid oname
    (transfer_destination_api_url a)
    (notes a) (transfer_source_operator_id a) (transfer_source_operator_name a)
    (transfer_confirmation_url a) (transfer_started_at a)
    (transfer_completed_at a) (documents_ready a).

Definition set_destination_api_url (url : option string)
    (a : Affiliation) : Affiliation :=
  mkAffiliation (aff_operator_id a) (aff_operator_name a) (status a)
    (affiliated_at a) (status_changed_at a)
    (transfer_destination_operator_id a)
    (transfer_destination_operator_name a) url
    (notes a) (transfer_source_operator_id a) (transfer_source_operator_name a)
    (transfer_confirmation_url a) (transfer_started_at a)
    (transfer_completed_at a) (documents_ready a).

Definition set_transfer_started_at (t : option Z) (a : Affiliation)
    : Affiliation :=
  mkAffiliation (aff_operator_id a) (aff_operator_name a) (status a)
    (affiliated_at a) (status_changed_at a)
    (transfer_destination_operator_id a)
    (transfer_destination_operator_name a) (transfer_destination_api_url a)
    (notes a) (transfer_source_operator_id a) (transfer_source_operator_name a)
    (transfer_confirmation_url a) t
    (transfer_completed_at a) (documents_ready a).

Definition set_transfer_completed_at (t : option Z) (a : Affiliation)
    : Affiliation :=
  mkAffiliation (aff_operator_id a) (aff_operator_name a) (status a)
    (affiliated_at a) (status_changed_at a)
    (transfer_destination_operator_id a)
    (transfer_destination_operator_name a) (transfer_destination_api_url a)
    (notes a) (transfer_source_operator_id a) (transfer_source_operator_name a)
    (transfer_confirmation_url a) (transfer_started_at a)
    t (documents_ready a).

Definition set_documents_ready (b : bool) (a : Affiliation) : Affiliation :=
  mkAffiliation (aff_operator_id a) (aff_operator_name a) (status a)
    (affiliated_at a) (status_changed_at a)
    (transfer_destination_operator_id a)
    (transfer_destination_operator_name a) (transfer_destination_api_url a)
    (notes a) (transfer_source_operator_id a) (transfer_source_operator_name a)
    (transfer_confirmation_url a) (transfer_started_at a)
    (transfer_completed_at a) b.

(** ** The outside world *)

(** The [urlDocuments] dictionary: document group to list of URLs. *)
Definition UrlDocuments := list (string * list string).

(** Events of [affiliation/rabbitmq/publisher.py], one per [publish_*]. *)
Inductive Event :=
  | AffiliationCreated (idCitizen : Z)
  | UserTransferred (idCitizen : Z)
  | DocumentsDownloadRequested (idCitizen : Z) (urlDocuments : UrlDocuments)
  | RegisterCitizenRequested (id : Z)
      (name address email operatorId operatorName : string)
  | UnregisterCitizenRequested (id : Z) (operatorId operatorName : string).

(** JSON bodies of the two peer calls. *)
Inductive HttpBody :=
  | TransferPayload (id : Z) (citizenName citizenEmail : string)
      (urlDocuments : UrlDocuments) (confirmAPI : string)
  | ConfirmationPayload (id : Z) (req_status : Z).

(** What a [requests] call gives back: an exception or a response. *)
Inductive HttpReply :=
  | Raised
  | Reply (status_code : Z) (text : string).

(** One entry of the chronological log of writes and outside calls. *)
Inductive Effect :=
  | SaveCitizen (cid : string)
  | SaveAffiliation (cid : string) (st : Status)
  | DeleteAffiliation (cid : string)
  | DeleteCitizen (cid : string)
  | Publish (e : Event) (delivered : bool)
  | HttpPost (url : string) (body : HttpBody)
  | HttpGet (url : string)
  | FetchDocuments (cid : string).

(** Everything a handler reads from outside during one invocation: the
    clock, the broker's and the peers' answers, and the Django settings. *)
Record Env := mkEnv {
  now : Z;
  broker_accepts : Event -> bool;
  http_post : string -> HttpBody -> HttpReply;
  http_get : string -> HttpReply;
  document_urls : string -> UrlDocuments;
  OPERATOR_ID : string;
  OPERATOR_NAME : string;
  TRANSFER_CONFIRMATION_URL : string;
  GOVCARPETA_API_URL : string
}.

Record World := mkWorld {
  db : gmap string Row;
  log : list Effect
}.

Definition emit (e : Effect) (w : World) : World :=
  mkWorld (db w) (log w ++ [e]).

(** A [publish_*] call: it returns whether the broker took the message and
    never raises. *)
Definition publish (env : Env) (e : Event) (w : World) : bool * World :=
  (broker_accepts env e, emit (Publish e (broker_accepts env e)) w).

(** ** Result dictionaries: [success] and a tag for the message template *)

Inductive Message :=
  | MsgAlreadyVerified
  | MsgAlreadyPending
  | MsgExistsExternally (text : string)
  | MsgRegisteredLocally
  | MsgErrorRegistering
  | MsgAlreadyExists
  | MsgTransferReceived
  | MsgErrorProcessingTransfer
  | MsgDocumentsReady
  | MsgNotFound
  | MsgErrorCompleting
  | MsgNotBeingTransferred
  | MsgTransferCompleted
  | MsgWaitingFor (documents mintic : bool)
  | MsgErrorChecking
  | MsgTargetUrlNotFound
  | MsgTargetFailed (text : string)
  | MsgTransferSent
  | MsgErrorContinuing
  | MsgCannotBeTransferred (st : Status)
  | MsgPublishFailed
  | MsgTransferInitiated
  | MsgErrorSending
  | MsgTransferredAndDeleted
  | MsgRolledBack
  | MsgErrorConfirmation
  | MsgAlreadyPendingDeletion
  | MsgMarkedForDeletion
  | MsgErrorDeletion.

Record Result := mkResult {
  success : bool;
  message : Message
}.

Definition ok (m : Message) : Result := mkResult true m.
Definition failure (m : Message) : Result := mkResult false m.

(** ** The ORM calls the services make *)

(** [affiliation/signals.py], [citizen_post_save]: a newly created citizen
    that is registered publishes [affiliation.created]; an id that is not an
    integer is caught and logged. *)
Definition citizen_post_save (env : Env) (created : bool) (c : Citizen)
    (w : World) : World :=
  if created && is_registered c then
    match Py.int (citizen_id c) with
    | Some n => snd (publish env (AffiliationCreated n) w)
    | None => w
    end
  else w.

(** [Citizen.objects.create(...)]: [None] is the [IntegrityError] of the
    unique [citizen_id]; [created_at] and [updated_at] are set by the
    database layer; the post-save signal runs after the insert. *)
Definition Citizen_create (env : Env) (c : Citizen) (w : World)
    : option World :=
  match db w !! citizen_id c with
  | Some _ => None
  | None =>
      let c' :=
        mkCitizen (citizen_id c) (name c) (address c) (email c)
          (operator_id c) (operator_name c) (is_registered c) (is_verified c)
          (verification_status c) (pending_deletion c)
          (verification_message c) (now env) (now env) in
      let w1 :=
        emit (SaveCitizen (citizen_id c))
          (mkWorld (<[citizen_id c := mkRow c' None]> (db w)) (log w)) in
      Some (citizen_post_save env true c' w1)
  end.

(** [citizen.save()] on an instance loaded from row [cid]: the whole record
    is written, [updated_at] is refreshed ([auto_now]), and the row's
    affiliation is untouched.  Django inserts when the row has gone. *)
Definition Citizen_save (env : Env) (cid : string) (c : Citizen) (w : World)
    : World :=
  let c' := set_updated_at (now env) c in
  match db w !! cid with
  | Some row =>
      citizen_post_save env false c'
        (emit (SaveCitizen cid)
           (mkWorld (<[cid := mkRow c' (affiliation row)]> (db w)) (log w)))
  | None =>
      citizen_post_save env true c'
        (emit (SaveCitizen cid)
           (mkWorld (<[cid := mkRow c' None]> (db w)) (log w)))
  end.

(** [Affiliation.objects.create(citizen=..., ...)]: [None] is the
    [IntegrityError] of the one-to-one key (or of a missing citizen row). *)
Definition Affiliation_create (env : Env) (cid : string) (a : Affiliation)
    (w : World) : option World :=
  match db w !! cid with
  | Some (mkRow c None) =>
      let a' :=
        mkAffiliation (aff_operator_id a) (aff_operator_name a) (status a)
          (now env) (now env) (transfer_destination_operator_id a)
          (transfer_destination_operator_name a)
          (transfer_destination_api_url a) (notes a)
          (transfer_source_operator_id a) (transfer_source_operator_name a)
          (transfer_confirmation_url a) (transfer_started_at a)
          (transfer_completed_at a) (documents_ready a) in
      Some (emit (SaveAffiliation cid (status a))
              (mkWorld (<[cid := mkRow c (Some a')]> (db w)) (log w)))
  | _ => None
  end.

(** [affiliation.save()] on the affiliation of citizen [cid]: the whole
    record is written and [status_changed_at] refreshed ([auto_now]).  With
    no citizen row there is nothing to write to. *)
Definition Affiliation_save (env : Env) (cid : string) (a : Affiliation)
    (w : World) : World :=
  match db w !! cid with
  | Some row =>
      emit (SaveAffiliation cid (status a))
        (mkWorld
           (<[cid := mkRow (citizen row)
                       (Some (set_status_changed_at (now env) a))]> (db w))
           (log w))
  | None => w
  end.

(** [affiliation.delete()]. *)
Definition Affiliation_delete (cid : string) (w : World) : World :=
  match db w !! cid with
  | Some row =>
      emit (DeleteAffiliation cid)
        (mkWorld (<[cid := mkRow (citizen row) None]> (db w)) (log w))
  | None => w
  end.

(** [citizen.delete()]: the affiliation goes with it ([CASCADE]). *)
Definition Citizen_delete (cid : string) (w : World) : World :=
  emit (DeleteCitizen cid) (mkWorld (delete cid (db w)) (log w)).

(** [Affiliation.objects.filter(citizen=citizen).first()]. *)
Definition Affiliation_first (cid : string) (w : World) : option Affiliation :=
  row ← db w !! cid; affiliation row.

(** A new [Affiliation(...)] with the model's defaults for the fields the
    caller does not pass. *)
Definition new_affiliation (oid oname : string) (st : Status)
    (confirmation_url : option string) (started : option Z) : Affiliation :=
  mkAffiliation oid oname st 0 0 None None None None None None
    confirmation_url started None false.

(** ** [CitizenService] ([affiliation/services/citizen_service.py]) *)

(** The [citizen_data] dictionary the register view passes on: the validated
    serializer fields and the operator taken from the settings. *)
Record CitizenData := mkCitizenData {
  cd_citizen_id : string;
  cd_name : string;
  cd_address : string;
  cd_email : string;
  cd_operator_id : string;
  cd_operator_name : string
}.

(** [validate_citizen]: a GET on the external registry; the citizen exists
    there when the answer is 200 with a non-empty body. *)
Definition validate_citizen (env : Env) (cid : string) (w : World)
    : (bool * Message) * World :=
  let url := GOVCARPETA_API_URL env ++ "/apis/validateCitizen/" ++ cid in
  let w1 := emit (HttpGet url) w in
  match http_get env url with
  | Reply code text =>
      if (code =? 200) && negb (text =? "")%string
      then ((true, MsgExistsExternally text), w1)
      else ((false, MsgNotFound), w1)
  | Raised => ((false, MsgNotFound), w1)
  end.

Definition register_citizen (env : Env) (d : CitizenData) (w : World)
    : Result * World :=
  let cid := cd_citizen_id d in
  let rejected :=
    match db w !! cid with
    | Some row =>
        if is_verified (citizen row) then Some MsgAlreadyVerified
        else if decide (verification_status (citizen row) = VERIFICATION_PENDING)
        then Some MsgAlreadyPending
        else None
    | None => None
    end in
  match rejected with
  | Some m => (failure m, w)
  | None =>
      let '((exists_, m), w1) := validate_citizen env cid w in
      if exists_ then (failure m, w1)
      else
        match
          Citizen_create env
            (mkCitizen cid (cd_name d) (cd_address d) (cd_email d)
               (cd_operator_id d) (cd_operator_name d) true false
               VERIFICATION_PENDING false
               (Some "Waiting for MINTIC verification") 0 0) w1
        with
        | None => (failure MsgErrorRegistering, w1)
        | Some w2 =>
            match
              Affiliation_create env cid
                (new_affiliation (cd_operator_id d) (cd_operator_name d)
                   PENDING None None) w2
            with
            | None => (failure MsgErrorRegistering, w2)
            | Some w3 =>
                match Py.int cid with
                | None => (failure MsgErrorRegistering, w3)
                | Some n =>
                    let '(_, w4) :=
                      publish env
                        (RegisterCitizenRequested n (cd_name d) (cd_address d)
                           (cd_email d) (cd_operator_id d)
                           (cd_operator_name d)) w3 in
                    (ok MsgRegisteredLocally, w4)
                end
            end
        end
  end.

Definition delete_affiliation (env : Env) (cid : string) (w : World)
    : Result * World :=
  match db w !! cid with
  | None => (failure MsgNotFound, w)
  | Some row =>
      let c := citizen row in
      if pending_deletion c then (failure MsgAlreadyPendingDeletion, w)
      else
        let c1 :=
          set_pending_deletion true
            (Some "Waiting for MINTIC unregister confirmation") c in
        let w1 := Citizen_save env cid c1 w in
        let aff := Affiliation_first cid w1 in
        let w2 :=
          match aff with
          | Some a => Affiliation_save env cid (set_status PENDING_DELETION a) w1
          | None => w1
          end in
        match Py.int cid with
        | None => (failure MsgErrorDeletion, w2)
        | Some n =>
            let '(published, w3) :=
              publish env
                (UnregisterCitizenRequested n (operator_id c) (operator_name c))
                w2 in
            if published then (ok MsgMarkedForDeletion, w3)
            else
              let w4 :=
                Citizen_save env cid (set_pending_deletion false None c1) w3 in
              let w5 :=
                match aff with
                | Some a => Affiliation_save env cid (set_status AFFILIATED a) w4
                | None => w4
                end in
              (failure MsgPublishFailed, w5)
        end
  end.

(** ** [TransferService] ([affiliation/services/transfer_service.py]) *)

(** The [id] of a transfer request as the JSON body carries it. *)
Inductive JsonId :=
  | JInt (z : Z)
  | JStr (s : string).

(** [str(transfer_data["id"])]. *)
Definition str_id (i : JsonId) : string :=
  match i with
  | JInt z => Py.str z
  | JStr s => s
  end.

(** The [transfer_data] dictionary; the view has checked that the four
    required keys are present ([confirmAPI] may still be [null]). *)
Record TransferData := mkTransferData {
  td_id : JsonId;
  td_citizenName : string;
  td_citizenEmail : string;
  td_urlDocuments : UrlDocuments;
  td_confirmAPI : option string
}.

Definition receive_transfer (env : Env) (p : TransferData) (w : World)
    : Result * World :=
  let cid := str_id (td_id p) in
  match db w !! cid with
  | Some _ => (failure MsgAlreadyExists, w)
  | None =>
      match
        Citizen_create env
          (mkCitizen cid (td_citizenName p) "" (td_citizenEmail p)
             (OPERATOR_ID env) (OPERATOR_NAME env) false false
             VERIFICATION_PENDING false
             (Some "Waiting for documents and MINTIC verification") 0 0) w
      with
      | None => (failure MsgErrorProcessingTransfer, w)
      | Some w1 =>
          match
            Affiliation_create env cid
              (new_affiliation (OPERATOR_ID env) (OPERATOR_NAME env)
                 TRANSFERRING (td_confirmAPI p) (Some (now env))) w1
          with
          | None => (failure MsgErrorProcessingTransfer, Citizen_delete cid w1)
          | Some w2 =>
              match Py.int cid with
              | None =>
                  (failure MsgErrorProcessingTransfer, Citizen_delete cid w2)
              | Some n =>
                  let '(_, w3) :=
                    publish env
                      (DocumentsDownloadRequested n (td_urlDocuments p)) w2 in
                  (ok MsgTransferReceived, w3)
              end
          end
      end
  end.

(** [_send_confirmation]: the POST to the sending operator; whatever goes
    wrong (the id is no integer, the call raises, the answer is not 200) is
    logged and swallowed. *)
Definition send_confirmation (confirmation_url cid : string) (st : Z)
    (w : World) : World :=
  match Py.int cid with
  | Some n => emit (HttpPost confirmation_url (ConfirmationPayload n st)) w
  | None => w
  end.

Definition check_and_complete_transfer (env : Env) (cid : string) (w : World)
    : Result * World :=
  match db w !! cid with
  | None => (failure MsgNotFound, w)
  | Some row =>
      match affiliation row with
      | None => (failure MsgErrorChecking, w)
      | Some a =>
          if decide (status a <> TRANSFERRING)
          then (failure MsgNotBeingTransferred, w)
          else
            let docs := documents_ready a in
            let mintic_verified := is_verified (citizen row) in
            if docs && mintic_verified then
              let w1 :=
                Citizen_save env cid (set_is_registered true (citizen row)) w in
              let a1 :=
                set_transfer_completed_at (Some (now env))
                  (set_status AFFILIATED a) in
              let w2 := Affiliation_save env cid a1 w1 in
              let w3 :=
                match transfer_confirmation_url a1 with
                | Some url =>
                    if Py.truthy (Some url)
                    then send_confirmation url cid 1 w2
                    else w2
                | None => w2
                end in
              match Py.int cid with
              | None => (failure MsgErrorChecking, w3)
              | Some n =>
                  let '(_, w4) := publish env (AffiliationCreated n) w3 in
                  (ok MsgTransferCompleted, w4)
              end
            else (failure (MsgWaitingFor (negb docs) (negb mintic_verified)), w)
      end
  end.

Definition complete_transfer_after_documents (env : Env) (cid : string)
    (w : World) : Result * World :=
  match db w !! cid with
  | None => (failure MsgNotFound, w)
  | Some row =>
      match affiliation row with
      | None => (failure MsgErrorCompleting, w)
      | Some a =>
          let c := citizen row in
          let w1 := Affiliation_save env cid (set_documents_ready true a) w in
          match Py.int cid with
          | None => (failure MsgErrorCompleting, w1)
          | Some n =>
              let '(_, w2) :=
                publish env
                  (RegisterCitizenRequested n (name c) (address c) (email c)
                     (OPERATOR_ID env) (OPERATOR_NAME env)) w1 in
              let '(_, w3) := check_and_complete_transfer env cid w2 in
              (ok MsgDocumentsReady, w3)
          end
      end
  end.

(** The [target_operator] dictionary built by the send view. *)
Record TargetOperator := mkTargetOperator {
  to_operator_id : string;
  to_operator_name : string;
  to_api_url : string
}.

(** [_get_citizen_documents]: one call to the document service; every
    failure inside it yields the empty dictionary, so the caller always gets
    a dictionary back. *)
Definition get_citizen_documents (env : Env) (cid : string) (w : World)
    : UrlDocuments * World :=
  (document_urls env cid, emit (FetchDocuments cid) w).

Definition continue_transfer_after_unregister (env : Env) (cid : string)
    (w : World) : Result * World :=
  match db w !! cid with
  | None => (failure MsgNotFound, w)
  | Some row =>
      match affiliation row with
      | None => (failure MsgErrorContinuing, w)
      | Some a =>
          if decide (status a <> TRANSFERRING)
          then (failure MsgNotBeingTransferred, w)
          else
            let '(url_documents, w1) := get_citizen_documents env cid w in
            match Py.int cid with
            | None => (failure MsgErrorContinuing, w1)
            | Some n =>
                let transfer_payload :=
                  TransferPayload n (name (citizen row)) (email (citizen row))
                    url_documents (TRANSFER_CONFIRMATION_URL env) in
                match transfer_destination_api_url a with
                | Some target_api_url =>
                    if Py.truthy (Some target_api_url) then
                      let w2 :=
                        emit (HttpPost target_api_url transfer_payload) w1 in
                      match http_post env target_api_url transfer_payload with
                      | Raised => (failure MsgErrorContinuing, w2)
                      | Reply code text =>
                          if negb ((code =? 200) || (code =? 201))
                          then (failure (MsgTargetFailed text), w2)
                          else (ok MsgTransferSent, w2)
                      end
                    else (failure MsgTargetUrlNotFound, w1)
                | None => (failure MsgTargetUrlNotFound, w1)
                end
            end
      end
  end.

Definition send_transfer (env : Env) (cid : string) (t : TargetOperator)
    (w : World) : Result * World :=
  match db w !! cid with
  | None => (failure MsgNotFound, w)
  | Some row =>
      match affiliation row with
      | None => (failure MsgErrorSending, w)
      | Some a =>
          if decide (status a <> AFFILIATED)
          then (failure (MsgCannotBeTransferred (status a)), w)
          else
            let a1 :=
              set_transfer_started_at (Some (now env))
                (set_destination_api_url (Some (to_api_url t))
                   (set_destination_operator (Some (to_operator_id t))
                      (Some (to_operator_name t))
                      (set_status TRANSFERRING a))) in
            let w1 := Affiliation_save env cid a1 w in
            match Py.int cid with
            | None => (failure MsgErrorSending, w1)
            | Some n =>
                let '(published, w2) :=
                  publish env
                    (UnregisterCitizenRequested n (OPERATOR_ID env)
                       (OPERATOR_NAME env)) w1 in
                if negb published then
                  let a2 :=
                    set_destination_operator None None
                      (set_status AFFILIATED a1) in
                  (failure MsgPublishFailed, Affiliation_save env cid a2 w2)
                else (ok MsgTransferInitiated, w2)
            end
      end
  end.

Definition handle_transfer_confirmation (env : Env) (cid : string)
    (req_status : Z) (w : World) : Result * World :=
  match db w !! cid with
  | None => (failure MsgNotFound, w)
  | Some row =>
      match affiliation row with
      | None => (failure MsgErrorConfirmation, w)
      | Some a =>
          if req_status =? 1 then
            let a1 :=
              set_transfer_completed_at (Some (now env))
                (set_status TRANSFERRED a) in
            let w1 := Affiliation_save env cid a1 w in
            match Py.int cid with
            | None => (failure MsgErrorConfirmation, w1)
            | Some n =>
                let '(_, w2) := publish env (UserTransferred n) w1 in
                let w3 := Affiliation_delete cid w2 in
                let w4 := Citizen_delete cid w3 in
                (ok MsgTransferredAndDeleted, w4)
            end
          else
            let a2 :=
              set_destination_operator None None (set_status AFFILIATED a) in
            (failure MsgRolledBack, Affiliation_save env cid a2 w)
      end
  end.

(** ** Consumers ([affiliation/rabbitmq]) *)

(** [handle_register_citizen_completed]; [cid] is [str(message.get("id"))]
    and [status_code] is [message.get("statusCode", 0)]. *)
Definition handle_register_citizen_completed (env : Env) (cid : string)
    (status_code : Z) (w : World) : World :=
  if (cid =? "")%string then w
  else
    match db w !! cid with
    | None => w
    | Some row =>
        if status_code =? 201 then
          let w1 :=
            Citizen_save env cid
              (set_verification true VERIFICATION_VERIFIED
                 (Some "Citizen successfully registered in MINTIC")
                 (citizen row)) w in
          match Affiliation_first cid w1 with
          | Some a =>
              if decide (status a = TRANSFERRING)
              then snd (check_and_complete_transfer env cid w1)
              else Affiliation_save env cid (set_status AFFILIATED a) w1
          | None => w1
          end
        else
          let w1 :=
            Citizen_save env cid
              (set_verification false VERIFICATION_FAILED
                 (Some ("Registration failed with status code: "
                        ++ Py.str status_code))
                 (citizen row)) w in
          match Affiliation_first cid w1 with
          | Some a => Affiliation_save env cid (set_status FAILED a) w1
          | None => w1
          end
    end.

(** The fields of an [unregister.citizen.completed] message the handler
    reads: [um_id] is [str(message.get("id"))], [um_error_message] is
    the [message] entry of [error] when [error] is a dictionary that has
    one. *)
Record UnregisterCompleted := mkUnregisterCompleted {
  um_id : string;
  um_success : bool;
  um_message : string;
  um_error_message : option string
}.

(** [affiliation and affiliation.status == "TRANSFERRING"]. *)
Definition is_transferring (aff : option Affiliation) : bool :=
  match aff with
  | Some a => bool_decide (status a = TRANSFERRING)
  | None => false
  end.

Definition handle_unregister_citizen_completed (env : Env)
    (m : UnregisterCompleted) (w : World) : World :=
  let cid := um_id m in
  if (cid =? "")%string then w
  else
    match db w !! cid with
    | None => w
    | Some row =>
        if um_success m then
          let aff := Affiliation_first cid w in
          if is_transferring aff
          then snd (continue_transfer_after_unregister env cid w)
          else
              let w1 :=
                match Py.int cid with
                | Some n => snd (publish env (UserTransferred n) w)
                | None => w
                end in
              let w2 :=
                match aff with
                | Some _ => Affiliation_delete cid w1
                | None => w1
                end in
              Citizen_delete cid w2
        else
          let error_msg := default (um_message m) (um_error_message m) in
          let w1 :=
            Citizen_save env cid
              (set_pending_deletion false
                 (Some ("Unregister failed: " ++ error_msg)) (citizen row)) w in
          match Affiliation_first cid w1 with
          | Some a => Affiliation_save env cid (set_status AFFILIATED a) w1
          | None => w1
          end
    end.

(** ** The operations of the service as one step function *)

Inductive Operation :=
  | OpRegister (d : CitizenData)
  | OpDeleteAffiliation (cid : string)
  | OpReceiveTransfer (p : TransferData)
  | OpDocumentsReady (cid : string)
  | OpCheckAndComplete (cid : string)
  | OpContinueTransfer (cid : string)
  | OpSendTransfer (cid : string) (t : TargetOperator)
  | OpTransferConfirmation (cid : string) (req_status : Z)
  | OpRegisterCompleted (cid : string) (status_code : Z)
  | OpUnregisterCompleted (m : UnregisterCompleted).

Definition run (env : Env) (op : Operation) (w : World) : World :=
  match op with
  | OpRegister d => snd (register_citizen env d w)
  | OpDeleteAffiliation cid => snd (delete_affiliation env cid w)
  | OpReceiveTransfer p => snd (receive_transfer env p w)
  | OpDocumentsReady cid => snd (complete_transfer_after_documents env cid w)
  | OpCheckAndComplete cid => snd (check_and_complete_transfer env cid w)
  | OpContinueTransfer cid => snd (continue_transfer_after_unregister env cid w)
  | OpSendTransfer cid t => snd (send_transfer env cid t w)
  | OpTransferConfirmation cid st =>
      snd (handle_transfer_confirmation env cid st w)
  | OpRegisterCompleted cid code =>
      handle_register_citizen_completed env cid code w
  | OpUnregisterCompleted m => handle_unregister_citizen_completed env m w
  end.

(** [check_and_complete_transfer] called once per environment of the list,
    one call after the other with nothing in between. *)
Fixpoint check_and_complete_calls (cid : string) (envs : list Env)
    (w : World) : World :=
  match envs with
  | [] => w
  | env :: rest =>
      check_and_complete_calls cid rest
        (snd (check_and_complete_transfer env cid w))
  end.

(** ** Observations *)

(** The confirmation POSTs in a log. *)
Definition is_confirmation_post (e : Effect) : bool :=
  match e with
  | HttpPost _ (ConfirmationPayload _ _) => true
  | _ => false
  end.

Definition confirmation_posts (l : list Effect) : list Effect :=
  List.filter is_confirmation_post l.

(** A row with the clock readings blanked: what remains is the state the
    handlers decide on. *)
Definition untimed_citizen (c : Citizen) : Citizen :=
  mkCitizen (citizen_id c) (name c) (address c) (email c) (operator_id c)
    (operator_name c) (is_registered c) (is_verified c)
    (verification_status c) (pending_deletion c) (verification_message c) 0 0.

Definition untimed_affiliation (a : Affiliation) : Affiliation :=
  mkAffiliation (aff_operator_id a) (aff_operator_name a) (status a) 0 0
    (transfer_destination_operator_id a)
    (transfer_destination_operator_name a) (transfer_destination_api_url a)
    (notes a) (transfer_source_operator_id a) (transfer_source_operator_name a)
    (transfer_confirmation_url a) None None (documents_ready a).

Definition untimed_row (r : Row) : Row :=
  mkRow (untimed_citizen (citizen r)) (untimed_affiliation <$> affiliation r).

Definition untimed (m : gmap string Row) : gmap string Row :=
  untimed_row <$> m.

(** The row of a citizen whose incoming transfer the gate has finalized at
    time [t]: what the two saves of [check_and_complete_transfer] leave. *)
Definition completed_row (t : Z) (c : Citizen) (a : Affiliation) : Row :=
  mkRow (set_updated_at t (set_is_registered true c))
    (Some (set_status_changed_at t
             (set_transfer_completed_at (Some t) (set_status AFFILIATED a)))).

(** The row [complete_transfer_after_documents] leaves at time [t] for a
    citizen whose id is an integer: the flag is set and saved, and the gate
    finalizes when the citizen is verified and still TRANSFERRING. *)
Definition after_documents_ready (t : Z) (r : Row) : Row :=
  match affiliation r with
  | Some a =>
      let a' := set_status_changed_at t (set_documents_ready true a) in
      if bool_decide (status a = TRANSFERRING) && is_verified (citizen r)
      then completed_row t (citizen r) a'
      else mkRow (citizen r) (Some a')
  | None => r
  end.

(** The row [handle_register_citizen_completed] leaves at time [t] on
    status code 201. *)
Definition after_register_completed (t : Z) (r : Row) : Row :=
  let c' :=
    set_updated_at t
      (set_verification true VERIFICATION_VERIFIED
         (Some "Citizen successfully registered in MINTIC") (citizen r)) in
  match affiliation r with
  | Some a =>
      if bool_decide (status a = TRANSFERRING) then
        if documents_ready a then completed_row t c' a else mkRow c' (Some a)
      else mkRow c' (Some (set_status_changed_at t (set_status AFFILIATED a)))
  | None => mkRow c' None
  end.

(** The row [receive_transfer] creates for payload [p]. *)
Definition received_row (env : Env) (p : TransferData) : Row :=
  mkRow
    (mkCitizen (str_id (td_id p)) (td_citizenName p) "" (td_citizenEmail p)
       (OPERATOR_ID env) (OPERATOR_NAME env) false false VERIFICATION_PENDING
       false (Some "Waiting for documents and MINTIC verification")
       (now env) (now env))
    (Some
       (mkAffiliation (OPERATOR_ID env) (OPERATOR_NAME env) TRANSFERRING
          (now env) (now env) None None None None None None (td_confirmAPI p)
          (Some (now env)) None false)).


(** The row [register_citizen] creates for [d]. *)
Definition registered_row (env : Env) (d : CitizenData) : Row :=
  mkRow
    (mkCitizen (cd_citizen_id d) (cd_name d) (cd_address d) (cd_email d)
       (cd_operator_id d) (cd_operator_name d) true false VERIFICATION_PENDING
       false (Some "Waiting for MINTIC verification") (now env) (now env))
    (Some
       (mkAffiliation (cd_operator_id d) (cd_operator_name d) PENDING
          (now env) (now env) None None None None None None None None None
          false)).

(** The final state of an incoming transfer. *)
Definition transfer_done (m : gmap string Row) (cid : string) : Prop :=
  exists c a,
    m !! cid = Some (mkRow c (Some a)) /\ status a = AFFILIATED /\
    is_registered c = true /\ is_verified c = true /\
    verification_status c = VERIFICATION_VERIFIED /\
    documents_ready a = true.

(** The invariant of the data model: verified exactly when the
    verification status says so. *)
Definition verified_iff_status (c : Citizen) : Prop :=
  is_verified c = true <-> verification_status c = VERIFICATION_VERIFIED.

Definition citizens_consistent (m : gmap string Row) : Prop :=
  forall cid row, m !! cid = Some row -> verified_iff_status (citizen row).

(** An incoming transfer under way for [cid]: the state [receive_transfer]
    leaves and the two events work on.  The id is an integer literal, as
    [receive_transfer] keeps no citizen for which [int(citizen_id)] raised. *)
Definition incoming_transfer (m : gmap string Row) (cid : string) : Prop :=
  exists row a n,
    m !! cid = Some row /\ affiliation row = Some a /\
    status a = TRANSFERRING /\ Py.int cid = Some n.

(** ** Concrete data for the examples *)

Definition env0 : Env :=
  mkEnv 1000 (fun _ => true) (fun _ _ => Reply 200 "OK")
    (fun _ => Reply 404 "") (fun _ => []) "op-1" "Operator One"
    "http://localhost:8000/api/v1/citizens/transfer/confirm/"
    "http://govcarpeta".

(** The same environment with a broker that refuses every message. *)
Definition env_broker_down : Env :=
  mkEnv 1000 (fun _ => false) (fun _ _ => Reply 200 "OK")
    (fun _ => Reply 404 "") (fun _ => []) "op-1" "Operator One"
    "http://localhost:8000/api/v1/citizens/transfer/confirm/"
    "http://govcarpeta".

Definition world0 : World := mkWorld ∅ [].

(** Citizen 111, affiliated and verified, never transferred. *)
Definition citizen_111 : Citizen :=
  mkCitizen "111" "Eva" "Calle 9" "eva@example.com" "op-1" "Operator One"
    true true VERIFICATION_VERIFIED false None 10 20.

Definition affiliation_111 : Affiliation :=
  mkAffiliation "op-1" "Operator One" AFFILIATED 10 20 None None None None
    None None None None None false.

Definition world_111 : World :=
  mkWorld {[ "111" := mkRow citizen_111 (Some affiliation_111) ]} [].

Definition target_op2 : TargetOperator :=
  mkTargetOperator "op-2" "Operator Two" "http://op2/api/transfer/receive/".

(** Citizen 111 after a successful [send_transfer] to operator two at time
    1000. *)
Definition affiliation_111_sent : Affiliation :=
  mkAffiliation "op-1" "Operator One" TRANSFERRING 10 1000 (Some "op-2")
    (Some "Operator Two") (Some "http://op2/api/transfer/receive/") None
    None None None (Some 1000) None false.

Definition world_111_sent : World :=
  mkWorld {[ "111" := mkRow citizen_111 (Some affiliation_111_sent) ]}
    [SaveAffiliation "111" TRANSFERRING;
     Publish (UnregisterCitizenRequested 111 "op-1" "Operator One") true].

(** Citizen 222, whose registration the authority refused. *)
Definition citizen_222_failed : Citizen :=
  mkCitizen "222" "Leo" "Calle 2" "leo@example.com" "op-1" "Operator One"
    true false VERIFICATION_FAILED false
    (Some "Registration failed with status code: 501") 10 20.

Definition world_222_failed : World :=
  mkWorld
    {[ "222" :=
         mkRow citizen_222_failed
           (Some
              (mkAffiliation "op-1" "Operator One" FAILED 10 20 None None None
                 None None None None None None false)) ]}
    [].


Definition data_333 : CitizenData :=
  mkCitizenData "333" "Sol" "Calle 3" "sol@example.com" "op-1" "Operator One".

(** The failed answer of the authority for citizen 111. *)
Definition unregister_111_failed : UnregisterCompleted :=
  mkUnregisterCompleted "111" false "MINTIC unregister failed" None.

(** An environment in which the destination operator answers 204. *)
Definition env_peer_204 : Env :=
  mkEnv 1000 (fun _ => true) (fun _ _ => Reply 204 "")
    (fun _ => Reply 404 "") (fun _ => []) "op-1" "Operator One"
    "http://localhost:8000/api/v1/citizens/transfer/confirm/"
    "http://govcarpeta".

(** Citizen 555 in the middle of an incoming transfer: documents ready,
    verified, and no callback URL stored. *)
Definition world_555_ready : World :=
  mkWorld
    {[ "555" :=
         mkRow
           (mkCitizen "555" "Luz" "Calle 1" "luz@example.com" "op-1"
              "Operator One" false true VERIFICATION_VERIFIED false None 10 20)
           (Some
              (mkAffiliation "op-1" "Operator One" TRANSFERRING 10 20 None None
                 None None None None None (Some 10) None true)) ]}
    [].

(** A transfer request for citizen 999 with a callback URL, and the same
    request with an empty [confirmAPI]. *)
Definition payload_999 : TransferData :=
  mkTransferData (JInt 999) "Ana" "ana@example.com"
    [("URL1", ["http://source/doc1"])] (Some "http://source/confirm").

Definition payload_999_no_callback : TransferData :=
  mkTransferData (JInt 999) "Ana" "ana@example.com"
    [("URL1", ["http://source/doc1"])] (Some "").

(** Citizen 999 as [receive_transfer] leaves it for [payload_999]. *)
Definition world_999_received : World :=
  snd (receive_transfer env0 payload_999 world0).

(** ** Further code of the service *)

(** [CitizenService.get_affiliation_status]: the [data] dictionary of a
    successful answer ([affiliated_at] is kept as the stored instant, which
    the source prints with [isoformat]). *)
Record AffiliationStatusData := mkAffiliationStatusData {
  sd_citizen_id : string;
  sd_citizen_name : string;
  sd_citizen_email : string;
  sd_operator_id : string;
  sd_operator_name : string;
  sd_status : Status;
  sd_affiliated_at : Z;
  sd_transfer_destination_operator_id : option string;
  sd_transfer_destination_operator_name : option string
}.

Inductive StatusReply :=
  | StatusData (d : AffiliationStatusData)
  | StatusCitizenNotFound
  | StatusNoAffiliation.

Definition get_affiliation_status (cid : string) (w : World) : StatusReply :=
  match db w !! cid with
  | None => StatusCitizenNotFound
  | Some row =>
      match Affiliation_first cid w with
      | None => StatusNoAffiliation
      | Some a =>
          StatusData
            (mkAffiliationStatusData (citizen_id (citizen row))
               (name (citizen row)) (email (citizen row)) (aff_operator_id a)
               (aff_operator_name a) (status a) (affiliated_at a)
               (transfer_destination_operator_id a)
               (transfer_destination_operator_name a))
      end
  end.




(** The body of a confirmation callback: each of the two keys may be
    missing. *)
Record ConfirmRequest := mkConfirmRequest {
  cr_id : option JsonId;
  cr_req_status : option Z
}.

(** [TransferConfirmView.post]: the HTTP status code and the new world. *)
Definition TransferConfirmView_post (env : Env) (rq : ConfirmRequest)
    (w : World) : Z * World :=
  match cr_id rq, cr_req_status rq with
  | Some i, Some st =>
      let '(r, w') := handle_transfer_confirmation env (str_id i) st w in
      (if success r then 200 else 400, w')
  | _, _ => (400, w)
  end.

(** The two events of an incoming transfer as the broker delivers them, each
    delivery with its own environment. *)
Inductive TransferEvent :=
  | EvDocumentsReady
  | EvRegisterCompleted (status_code : Z).

Definition handle_event (env : Env) (cid : string) (ev : TransferEvent)
    (w : World) : World :=
  match ev with
  | EvDocumentsReady => snd (complete_transfer_after_documents env cid w)
  | EvRegisterCompleted code => handle_register_citizen_completed env cid code w
  end.

Fixpoint handle_events (cid : string) (evs : list (Env * TransferEvent))
    (w : World) : World :=
  match evs with
  | [] => w
  | (env, ev) :: rest => handle_events cid rest (handle_event env cid ev w)
  end.

(** The citizen an operation is about. *)
Definition target_id (op : Operation) : string :=
  match op with
  | OpRegister d => cd_citizen_id d
  | OpDeleteAffiliation cid => cid
  | OpReceiveTransfer p => str_id (td_id p)
  | OpDocumentsReady cid => cid
  | OpCheckAndComplete cid => cid
  | OpContinueTransfer cid => cid
  | OpSendTransfer cid _ => cid
  | OpTransferConfirmation cid _ => cid
  | OpRegisterCompleted cid _ => cid
  | OpUnregisterCompleted m => um_id m
  end.

(** The two operations that create a citizen. *)
Definition creates (op : Operation) : bool :=
  match op with
  | OpRegister _ | OpReceiveTransfer _ => true
  | _ => false
  end.

(** Number of confirmation POSTs made so far. *)
Definition posts (w : World) : nat := length (confirmation_posts (log w)).

(** One confirmation is still owed while the affiliation is TRANSFERRING. *)
Definition owed (cid : string) (w : World) : nat :=
  if is_transferring (Affiliation_first cid w) then 1%nat else 0%nat.

(** Every stored citizen has its affiliation. *)
Definition all_affiliated (m : gmap string Row) : Prop :=
  forall cid row, m !! cid = Some row -> is_Some (affiliation row).

(** The affiliation [send_transfer] saves at time [t_now] for target [t]. *)
Definition sent_affiliation (t_now : Z) (t : TargetOperator) (a : Affiliation)
    : Affiliation :=
  set_status_changed_at t_now
    (set_transfer_started_at (Some t_now)
       (set_destination_api_url (Some (to_api_url t))
          (set_destination_operator (Some (to_operator_id t))
             (Some (to_operator_name t)) (set_status TRANSFERRING a)))).

(** The row [delete_affiliation] saves at time [t_now]. *)
Definition marked_row (t_now : Z) (c : Citizen) (a : Affiliation) : Row :=
  mkRow
    (set_updated_at t_now
       (set_pending_deletion true
          (Some "Waiting for MINTIC unregister confirmation") c))
    (Some (set_status_changed_at t_now (set_status PENDING_DELETION a))).

(** An environment in which the external registry knows every citizen. *)
Definition env_known_externally : Env :=
  mkEnv 1000 (fun _ => true) (fun _ _ => Reply 200 "OK")
    (fun _ => Reply 200 "Citizen found") (fun _ => []) "op-1" "Operator One"
    "http://localhost:8000/api/v1/citizens/transfer/confirm/"
    "http://govcarpeta".

(** The successful answer of the authority to an unregister request for
    citizen 111. *)
Definition unregister_111_done : UnregisterCompleted :=
  mkUnregisterCompleted "111" true "Citizen unregistered successfully" None.

(** The affiliation stored for citizen 222. *)
Definition affiliation_222_failed : Affiliation :=
  mkAffiliation "op-1" "Operator One" FAILED 10 20 None None None None None
    None None None None false.

(** The two records stored for citizen 555. *)
Definition citizen_555 : Citizen :=
  mkCitizen "555" "Luz" "Calle 1" "luz@example.com" "op-1" "Operator One"
    false true VERIFICATION_VERIFIED false None 10 20.

Definition affiliation_555 : Affiliation :=
  mkAffiliation "op-1" "Operator One" TRANSFERRING 10 20 None None None None
    None None None (Some 10) None true.



(** * Properties *)

(** ** [int] undoes [str] *)

Section PyRoundTrip.

Lemma digit_not_space c : Py.is_digit c = true -> Py.is_space c = false.
Proof.
  destruct c as [[] [] [] [] [] [] [] []]; try reflexivity; discriminate.
Qed.

Lemma digit_not_sign c :
  Py.is_digit c = true ->
  Ascii.eqb c "-"%char = false /\ Ascii.eqb c "+"%char = false.
Proof.
  destruct c as [[] [] [] [] [] [] [] []]; try discriminate; split; reflexivity.
Qed.

Lemma all_digits_string_of_uint d :
  Py.all_digits (NilEmpty.string_of_uint d) = true.
Proof. induction d; simpl; try rewrite IHd; reflexivity. Qed.

Lemma rstrip_all_digits s : Py.all_digits s = true -> Py.rstrip s = s.
Proof.
  induction s as [|c r IH]; [reflexivity|].
  cbn [Py.all_digits Py.rstrip]. intros [Hc Hr]%andb_true_iff.
  rewrite (IH Hr). destruct r; [|reflexivity].
  now rewrite (digit_not_space _ Hc).
Qed.

Lemma rstrip_cons a s :
  Py.rstrip s = s -> s <> EmptyString ->
  Py.rstrip (String a s) = String a s.
Proof.
  intros H Hne. cbn [Py.rstrip]. rewrite H. destruct s; congruence.
Qed.

Lemma join_digits_all_digits s :
  Py.all_digits s = true ->
  forall prev, prev = true \/ s <> EmptyString ->
  Py.join_digits prev s = Some s.
Proof.
  induction s as [|c r IH]; intros Hs prev Hp.
  - destruct Hp as [->|Hp]; [reflexivity|congruence].
  - cbn [Py.all_digits] in Hs. apply andb_true_iff in Hs as [Hc Hr].
    cbn [Py.join_digits]. rewrite Hc, (IH Hr true) by now left.
    reflexivity.
Qed.

Lemma string_of_uint_nonempty d :
  d <> Decimal.Nil -> NilEmpty.string_of_uint d <> EmptyString.
Proof. destruct d; simpl; congruence. Qed.

Lemma int_digits (neg : bool) s d :
  Py.all_digits s = true -> s <> EmptyString ->
  NilZero.uint_of_string s = Some d ->
  Py.int (if neg then String "-"%char s else s) =
  Some (if neg then - Z.of_uint d else Z.of_uint d).
Proof.
  intros Hs Hne Hd. unfold Py.int.
  destruct s as [|c r]; [congruence|].
  pose proof Hs as Hcr. cbn [Py.all_digits] in Hcr.
  apply andb_true_iff in Hcr as [Hc _].
  destruct (digit_not_sign _ Hc) as [Hm Hp].
  destruct neg.
  - cbn [Py.lstrip]. change (Py.is_space "-"%char) with false. cbv iota.
    rewrite (rstrip_cons "-"%char (String c r))
      by (try apply rstrip_all_digits; congruence).
    cbn [Py.split_sign]. change (Ascii.eqb "-"%char "-"%char) with true. cbv iota.
    rewrite (join_digits_all_digits _ Hs false) by (right; congruence).
    cbn [mbind option_bind]. rewrite Hd. reflexivity.
  - cbn [Py.lstrip]. rewrite (digit_not_space _ Hc).
    rewrite (rstrip_all_digits _ Hs).
    cbn [Py.split_sign]. rewrite Hm, Hp.
    rewrite (join_digits_all_digits _ Hs false) by (right; congruence).
    cbn [mbind option_bind]. rewrite Hd. reflexivity.
Qed.

(** Every integer printed by [str] is read back by [int]. *)
Lemma int_str (z : Z) : Py.int (Py.str z) = Some z.
Proof.
  destruct z as [|p|p]; [reflexivity| |].
  - unfold Py.str. cbn [Z.to_int NilZero.string_of_int].
    pose proof (Unsigned.to_uint_nonnil p) as Hnn.
    assert (Hs : NilZero.string_of_uint (Pos.to_uint p)
                 = NilEmpty.string_of_uint (Pos.to_uint p))
      by (destruct (Pos.to_uint p); [congruence|reflexivity..]).
    rewrite Hs.
    rewrite (int_digits false _ (Pos.to_uint p)).
    + unfold Z.of_uint. now rewrite Unsigned.of_to.
    + apply all_digits_string_of_uint.
    + now apply string_of_uint_nonempty.
    + rewrite <- Hs. now apply NilZero.usu.
  - unfold Py.str. cbn [Z.to_int NilZero.string_of_int].
    pose proof (Unsigned.to_uint_nonnil p) as Hnn.
    assert (Hs : NilZero.string_of_uint (Pos.to_uint p)
                 = NilEmpty.string_of_uint (Pos.to_uint p))
      by (destruct (Pos.to_uint p); [congruence|reflexivity..]).
    rewrite Hs.
    rewrite (int_digits true _ (Pos.to_uint p)).
    + unfold Z.of_uint. now rewrite Unsigned.of_to.
    + apply all_digits_string_of_uint.
    + now apply string_of_uint_nonempty.
    + rewrite <- Hs. now apply NilZero.usu.
Qed.

End PyRoundTrip.

(** ** The ORM calls on a row that is there *)

Section Orm.

Context (env : Env) (cid : string) (w : World) (row : Row).
Hypothesis Hrow : db w !! cid = Some row.

Lemma Citizen_save_found c :
  Citizen_save env cid c w =
  mkWorld (<[cid := mkRow (set_updated_at (now env) c) (affiliation row)]> (db w))
    (log w ++ [SaveCitizen cid]).
Proof. unfold Citizen_save. rewrite Hrow. reflexivity. Qed.

Lemma Affiliation_save_found a :
  Affiliation_save env cid a w =
  mkWorld
    (<[cid := mkRow (citizen row) (Some (set_status_changed_at (now env) a))]>
       (db w))
    (log w ++ [SaveAffiliation cid (status a)]).
Proof. unfold Affiliation_save. rewrite Hrow. reflexivity. Qed.

Lemma Affiliation_first_found : Affiliation_first cid w = affiliation row.
Proof. unfold Affiliation_first. rewrite Hrow. reflexivity. Qed.

End Orm.

Lemma db_send_confirmation url cid st w :
  db (send_confirmation url cid st w) = db w.
Proof. unfold send_confirmation. destruct (Py.int cid); reflexivity. Qed.

(** ** The completion gate, case by case *)

Section Gate.

Context (env : Env) (cid : string) (w : World) (row : Row) (a : Affiliation).
Hypothesis Hrow : db w !! cid = Some row.
Hypothesis Haff : affiliation row = Some a.

Lemma gate_not_transferring :
  status a <> TRANSFERRING ->
  check_and_complete_transfer env cid w = (failure MsgNotBeingTransferred, w).
Proof.
  intros Hst. unfold check_and_complete_transfer. rewrite Hrow, Haff.
  destruct (decide (status a <> TRANSFERRING)) as [_|Hne]; [reflexivity|contradiction].
Qed.

Lemma gate_waiting :
  status a = TRANSFERRING ->
  documents_ready a && is_verified (citizen row) = false ->
  check_and_complete_transfer env cid w =
  (failure (MsgWaitingFor (negb (documents_ready a))
              (negb (is_verified (citizen row)))), w).
Proof.
  intros Hst Hb. unfold check_and_complete_transfer. rewrite Hrow, Haff.
  destruct (decide (status a <> TRANSFERRING)) as [Hne|_]; [contradiction|].
  rewrite Hb. reflexivity.
Qed.

(** Both conditions hold: the two saves, the confirmation POST when a
    callback URL is stored and the id is an integer, the event when the id
    is an integer. *)
Lemma gate_completes :
  status a = TRANSFERRING ->
  documents_ready a = true -> is_verified (citizen row) = true ->
  check_and_complete_transfer env cid w =
  match Py.int cid with
  | Some n =>
      (ok MsgTransferCompleted,
       mkWorld (<[cid := completed_row (now env) (citizen row) a]> (db w))
         (log w ++ [SaveCitizen cid; SaveAffiliation cid AFFILIATED]
            ++ (if Py.truthy (transfer_confirmation_url a)
                then [HttpPost (default "" (transfer_confirmation_url a))
                        (ConfirmationPayload n 1)]
                else [])
            ++ [Publish (AffiliationCreated n)
                  (broker_accepts env (AffiliationCreated n))]))
  | None =>
      (failure MsgErrorChecking,
       mkWorld (<[cid := completed_row (now env) (citizen row) a]> (db w))
         (log w ++ [SaveCitizen cid; SaveAffiliation cid AFFILIATED]))
  end.
Proof.
  intros Hst Hd Hv. unfold check_and_complete_transfer. rewrite Hrow, Haff.
  destruct (decide (status a <> TRANSFERRING)) as [Hne|_]; [contradiction|].
  rewrite Hd, Hv. cbn [andb].
  rewrite (Citizen_save_found env cid w row Hrow).
  erewrite Affiliation_save_found by (cbn [db]; apply lookup_insert_eq).
  cbn [db log citizen]. rewrite insert_insert_eq.
  unfold completed_row, send_confirmation, publish, emit.
  cbn [transfer_confirmation_url set_transfer_completed_at set_status status].
  destruct (Py.int cid) as [n|];
    destruct (transfer_confirmation_url a) as [[|c r]|];
    cbn [Py.truthy db log fst snd default]; rewrite <- ?app_assoc;
    reflexivity.
Qed.

End Gate.

(** ** Calling the gate again *)

Lemma gate_unknown env cid w :
  db w !! cid = None ->
  check_and_complete_transfer env cid w = (failure MsgNotFound, w).
Proof. intros H. unfold check_and_complete_transfer. now rewrite H. Qed.

Lemma gate_no_affiliation env cid w row :
  db w !! cid = Some row -> affiliation row = None ->
  check_and_complete_transfer env cid w = (failure MsgErrorChecking, w).
Proof. intros H Ha. unfold check_and_complete_transfer. now rewrite H, Ha. Qed.

(** After any call of the gate a further call, at any later time and
    whatever the outside answers then, returns the world it was given. *)
Lemma gate_settled env env' cid w :
  snd (check_and_complete_transfer env' cid
         (snd (check_and_complete_transfer env cid w))) =
  snd (check_and_complete_transfer env cid w).
Proof.
  destruct (db w !! cid) as [row|] eqn:Hrow.
  2: { rewrite (gate_unknown env cid w Hrow). cbn [snd].
       now rewrite (gate_unknown env' cid w Hrow). }
  destruct (affiliation row) as [a|] eqn:Haff.
  2: { rewrite (gate_no_affiliation env cid w row Hrow Haff). cbn [snd].
       now rewrite (gate_no_affiliation env' cid w row Hrow Haff). }
  destruct (decide (status a = TRANSFERRING)) as [Hst|Hst].
  2: { rewrite (gate_not_transferring env cid w row a Hrow Haff Hst).
       cbn [snd].
       now rewrite (gate_not_transferring env' cid w row a Hrow Haff Hst). }
  destruct (documents_ready a && is_verified (citizen row)) eqn:Hb.
  2: { rewrite (gate_waiting env cid w row a Hrow Haff Hst Hb). cbn [snd].
       now rewrite (gate_waiting env' cid w row a Hrow Haff Hst Hb). }
  apply andb_true_iff in Hb as [Hd Hv].
  rewrite (gate_completes env cid w row a Hrow Haff Hst Hd Hv).
  destruct (Py.int cid) as [n|]; cbn [snd];
    erewrite gate_not_transferring;
    try reflexivity; try (cbn [db]; apply lookup_insert_eq);
    try reflexivity; cbn; discriminate.
Qed.

Lemma gate_calls_settled cid envs : forall w,
  (forall env, snd (check_and_complete_transfer env cid w) = w) ->
  check_and_complete_calls cid envs w = w.
Proof.
  induction envs as [|env rest IH]; intros w Hw; [reflexivity|].
  cbn [check_and_complete_calls]. rewrite Hw. now apply IH.
Qed.

(** C2. [check_and_complete_transfer] is idempotent.  Called any number of
    times (at least once) in a row for the same citizen, each call at its own
    time and with its own answers from the outside, it leaves the world
    (database and log of writes, POSTs and events) of the first call.  On a
    citizen whose affiliation is not TRANSFERRING it changes nothing and
    answers "not being transferred"; that is also what every call after a
    completed transfer does. *)
Theorem check_and_complete_transfer_idempotent :
  forall (cid : string) (w : World) (env : Env) (envs : list Env),
    check_and_complete_calls cid (env :: envs) w =
      snd (check_and_complete_transfer env cid w)
    /\ (forall row a,
          db w !! cid = Some row -> affiliation row = Some a ->
          status a <> TRANSFERRING ->
          check_and_complete_transfer env cid w =
            (failure MsgNotBeingTransferred, w))
    /\ (forall env',
          fst (check_and_complete_transfer env cid w) = ok MsgTransferCompleted ->
          check_and_complete_transfer env' cid
            (snd (check_and_complete_transfer env cid w)) =
            (failure MsgNotBeingTransferred,
             snd (check_and_complete_transfer env cid w))).
Proof.
  intros cid w env envs. split; [|split].
  - cbn [check_and_complete_calls]. apply gate_calls_settled.
    intros env'. apply gate_settled.
  - intros row a Hrow Haff Hst. now apply (gate_not_transferring _ _ _ row a).
  - intros env'.
    destruct (db w !! cid) as [row|] eqn:Hrow.
    2: { rewrite gate_unknown by done. discriminate. }
    destruct (affiliation row) as [a|] eqn:Haff.
    2: { rewrite (gate_no_affiliation _ _ _ row) by done. discriminate. }
    destruct (decide (status a = TRANSFERRING)) as [Hst|Hst].
    2: { rewrite (gate_not_transferring _ _ _ row a) by done. discriminate. }
    destruct (documents_ready a && is_verified (citizen row)) eqn:Hb.
    2: { rewrite (gate_waiting _ _ _ row a) by done. discriminate. }
    apply andb_true_iff in Hb as [Hd Hv].
    rewrite (gate_completes env cid w row a Hrow Haff Hst Hd Hv).
    destruct (Py.int cid) as [n|]; [|discriminate]. intros _. cbn [snd].
    eapply gate_not_transferring;
      [cbn [db]; apply lookup_insert_eq|reflexivity|cbn; discriminate].
Qed.

(** ** The two events of an incoming transfer *)

Lemma gate_db env cid w row a :
  db w !! cid = Some row -> affiliation row = Some a ->
  db (snd (check_and_complete_transfer env cid w)) =
  if bool_decide (status a = TRANSFERRING) && documents_ready a
     && is_verified (citizen row)
  then <[cid := completed_row (now env) (citizen row) a]> (db w)
  else db w.
Proof.
  intros Hrow Haff.
  destruct (decide (status a = TRANSFERRING)) as [Hst|Hst].
  - rewrite (bool_decide_eq_true_2 _ Hst). cbn [andb].
    destruct (documents_ready a) eqn:Hd;
      [destruct (is_verified (citizen row)) eqn:Hv|].
    + rewrite (gate_completes env cid w row a Hrow Haff Hst Hd Hv).
      now destruct (Py.int cid).
    + erewrite gate_waiting by (try eassumption; now rewrite Hd, Hv).
      reflexivity.
    + erewrite gate_waiting by (try eassumption; now rewrite Hd).
      reflexivity.
  - rewrite (bool_decide_eq_false_2 _ Hst).
    now rewrite (gate_not_transferring env cid w row a Hrow Haff Hst).
Qed.

Lemma documents_ready_db env cid w row n :
  db w !! cid = Some row -> Py.int cid = Some n ->
  is_Some (affiliation row) ->
  db (snd (complete_transfer_after_documents env cid w)) =
  <[cid := after_documents_ready (now env) row]> (db w).
Proof.
  intros Hrow Hn [a Haff]. unfold complete_transfer_after_documents.
  rewrite Hrow, Haff, Hn.
  rewrite (Affiliation_save_found env cid w row Hrow).
  unfold publish, emit. cbn [db log].
  match goal with
  | |- context [check_and_complete_transfer env cid ?w2] =>
      pose proof (gate_db env cid w2 _ _ (lookup_insert_eq _ _ _) eq_refl) as Hg;
      destruct (check_and_complete_transfer env cid w2) as [r w3]
  end.
  cbn [snd db citizen] in Hg |- *. rewrite Hg.
  unfold after_documents_ready. rewrite Haff.
  cbn [status documents_ready set_status_changed_at set_documents_ready].
  rewrite andb_true_r.
  destruct (bool_decide (status a = TRANSFERRING) && is_verified (citizen row));
    [now rewrite insert_insert_eq|reflexivity].
Qed.

Lemma register_completed_db env cid w row :
  db w !! cid = Some row -> cid <> "" ->
  db (handle_register_citizen_completed env cid 201 w) =
  <[cid := after_register_completed (now env) row]> (db w).
Proof.
  intros Hrow Hne. unfold handle_register_citizen_completed.
  apply String.eqb_neq in Hne. rewrite Hne, Hrow. cbn [Z.eqb Pos.eqb].
  rewrite (Citizen_save_found env cid w row Hrow).
  erewrite Affiliation_first_found by (cbn [db]; apply lookup_insert_eq).
  unfold after_register_completed. cbn [affiliation].
  destruct (affiliation row) as [a|] eqn:Haff; [|reflexivity].
  destruct (decide (status a = TRANSFERRING)) as [Hst|Hst].
  - rewrite (bool_decide_eq_true_2 _ Hst).
    erewrite gate_db by (cbn [db]; first [apply lookup_insert_eq|reflexivity]).
    cbn [db citizen is_verified set_updated_at set_verification].
    rewrite (bool_decide_eq_true_2 _ Hst), andb_true_r. cbn [andb].
    destruct (documents_ready a); [now rewrite insert_insert_eq|reflexivity].
  - rewrite (bool_decide_eq_false_2 _ Hst).
    erewrite Affiliation_save_found by (cbn [db]; apply lookup_insert_eq).
    cbn [db citizen]. now rewrite insert_insert_eq.
Qed.

Lemma int_nonempty cid n : Py.int cid = Some n -> cid <> "".
Proof. intros H ->. discriminate. Qed.

Lemma untimed_insert cid r (m : gmap string Row) :
  untimed (<[cid := r]> m) = <[cid := untimed_row r]> (untimed m).
Proof. unfold untimed. apply fmap_insert. Qed.

(** The two events in either order, row by row. *)
Lemma events_commute_row t1 t2 t1' t2' c a :
  status a = TRANSFERRING ->
  untimed_row
    (after_register_completed t2 (after_documents_ready t1 (mkRow c (Some a)))) =
  untimed_row
    (after_documents_ready t2' (after_register_completed t1' (mkRow c (Some a)))).
Proof.
  intros Hst. destruct a, c. cbn in Hst. subst.
  destruct documents_ready0, is_verified0; reflexivity.
Qed.

Lemma events_done_docs_first t1 t2 c a :
  status a = TRANSFERRING ->
  exists c' a',
    after_register_completed t2 (after_documents_ready t1 (mkRow c (Some a))) =
      mkRow c' (Some a') /\
    status a' = AFFILIATED /\ is_registered c' = true /\
    is_verified c' = true /\ verification_status c' = VERIFICATION_VERIFIED /\
    documents_ready a' = true.
Proof.
  intros Hst. destruct a, c. cbn in Hst. subst.
  destruct documents_ready0, is_verified0;
    do 2 eexists; (split; [reflexivity|]); cbn; auto.
Qed.

Lemma events_done_registration_first t1 t2 c a :
  status a = TRANSFERRING ->
  exists c' a',
    after_documents_ready t2 (after_register_completed t1 (mkRow c (Some a))) =
      mkRow c' (Some a') /\
    status a' = AFFILIATED /\ is_registered c' = true /\
    is_verified c' = true /\ verification_status c' = VERIFICATION_VERIFIED /\
    documents_ready a' = true.
Proof.
  intros Hst. destruct a, c. cbn in Hst. subst.
  destruct documents_ready0, is_verified0;
    do 2 eexists; (split; [reflexivity|]); cbn; auto.
Qed.

(** With the clock read at the same two instants, a transfer that has seen
    neither event ends in the same row to the last field. *)
Lemma events_commute_fresh_row t1 t2 c a :
  status a = TRANSFERRING ->
  documents_ready a = false -> is_verified c = false ->
  after_register_completed t2 (after_documents_ready t1 (mkRow c (Some a))) =
  after_documents_ready t2 (after_register_completed t1 (mkRow c (Some a))).
Proof.
  intros Hst Hd Hv. destruct a, c. cbn in Hst, Hd, Hv. subst. reflexivity.
Qed.

Lemma after_register_completed_affiliation t r :
  is_Some (affiliation r) ->
  is_Some (affiliation (after_register_completed t r)).
Proof.
  intros [a Ha]. unfold after_register_completed. rewrite Ha.
  repeat case_match; cbn; eauto.
Qed.

Lemma after_documents_ready_affiliation t r :
  is_Some (affiliation r) ->
  is_Some (affiliation (after_documents_ready t r)).
Proof.
  intros [a Ha]. unfold after_documents_ready. rewrite Ha.
  repeat case_match; cbn; eauto.
Qed.

(** C1. Order independence of the two events of an incoming transfer.  For a
    citizen in TRANSFERRING status whose id is an integer (an incoming
    transfer), documents-ready followed by registration-completed(201) and
    the reverse order end in the same database up to the clock readings
    stored in it, and in both the citizen is registered and verified and the
    affiliation is AFFILIATED with documents ready.  When the transfer had
    seen neither event and the clock shows the same two instants in both
    orders, the two databases are equal to the last field. *)
Theorem documents_ready_register_completed_commute :
  forall (w : World) (cid : string) (envD envR envR' envD' : Env),
    incoming_transfer (db w) cid ->
    let wA :=
      handle_register_citizen_completed envR cid 201
        (snd (complete_transfer_after_documents envD cid w)) in
    let wB :=
      snd (complete_transfer_after_documents envD' cid
             (handle_register_citizen_completed envR' cid 201 w)) in
    untimed (db wA) = untimed (db wB)
    /\ transfer_done (db wA) cid
    /\ transfer_done (db wB) cid
    /\ (forall row a,
          db w !! cid = Some row -> affiliation row = Some a ->
          documents_ready a = false -> is_verified (citizen row) = false ->
          now envD = now envR' -> now envR = now envD' ->
          db wA = db wB).
Proof.
  intros w cid envD envR envR' envD' (row & a & n & Hrow & Haff & Hst & Hn).
  intros wA wB.
  pose proof (int_nonempty _ _ Hn) as Hne.
  assert (HA : db wA =
    <[cid := after_register_completed (now envR)
               (after_documents_ready (now envD) row)]> (db w)).
  { unfold wA.
    erewrite register_completed_db; [|erewrite documents_ready_db by eauto|done].
    - erewrite documents_ready_db by eauto. now rewrite insert_insert_eq.
    - apply lookup_insert_eq. }
  assert (HB : db wB =
    <[cid := after_documents_ready (now envD')
               (after_register_completed (now envR') row)]> (db w)).
  { unfold wB.
    erewrite documents_ready_db; [|erewrite register_completed_db by eauto|..].
    - erewrite register_completed_db by eauto. now rewrite insert_insert_eq.
    - apply lookup_insert_eq.
    - exact Hn.
    - apply after_register_completed_affiliation. eauto. }
  destruct row as [c oa]. cbn in Haff. subst oa.
  rewrite HA, HB. repeat split.
  - rewrite !untimed_insert. f_equal. now apply events_commute_row.
  - destruct (events_done_docs_first (now envD) (now envR) c a Hst)
      as (c' & a' & -> & H). exists c', a'. split; [apply lookup_insert_eq|exact H].
  - destruct (events_done_registration_first (now envR') (now envD') c a Hst)
      as (c' & a' & -> & H). exists c', a'. split; [apply lookup_insert_eq|exact H].
  - intros row0 a0 Hrow0 Haff0 Hd Hv Ht1 Ht2.
    rewrite Hrow in Hrow0. injection Hrow0 as <-. cbn in Haff0, Hv.
    injection Haff0 as <-. rewrite <- Ht1, <- Ht2. f_equal.
    now apply events_commute_fresh_row.
Qed.

(** ** The round trip of an incoming transfer, step by step *)

Lemma receive_transfer_creates env p w n :
  db w !! str_id (td_id p) = None ->
  Py.int (str_id (td_id p)) = Some n ->
  receive_transfer env p w =
  (ok MsgTransferReceived,
   mkWorld (<[str_id (td_id p) := received_row env p]> (db w))
     (log w ++ [SaveCitizen (str_id (td_id p));
                SaveAffiliation (str_id (td_id p)) TRANSFERRING;
                Publish (DocumentsDownloadRequested n (td_urlDocuments p))
                  (broker_accepts env
                     (DocumentsDownloadRequested n (td_urlDocuments p)))])).
Proof.
  intros Hnone Hn. unfold receive_transfer. rewrite Hnone.
  unfold Citizen_create. cbn [citizen_id]. rewrite Hnone.
  unfold citizen_post_save. cbn [is_registered andb].
  unfold Affiliation_create, emit. cbn [db log]. rewrite lookup_insert_eq.
  rewrite Hn. unfold publish, emit, received_row, new_affiliation.
  cbn [db log fst snd status aff_operator_id aff_operator_name
         transfer_destination_operator_id transfer_destination_operator_name
         transfer_destination_api_url notes transfer_source_operator_id
         transfer_source_operator_name transfer_confirmation_url
         transfer_started_at transfer_completed_at documents_ready].
  rewrite insert_insert_eq, <- !app_assoc. reflexivity.
Qed.

(** A transfer request that succeeds leaves an incoming transfer under
    way; one that fails leaves no row for the citizen. *)
Lemma receive_transfer_incoming env p w :
  db w !! str_id (td_id p) = None ->
  if success (fst (receive_transfer env p w))
  then incoming_transfer (db (snd (receive_transfer env p w))) (str_id (td_id p))
  else db (snd (receive_transfer env p w)) !! str_id (td_id p) = None.
Proof.
  intros Hnone.
  destruct (Py.int (str_id (td_id p))) as [n|] eqn:Hn.
  - rewrite (receive_transfer_creates env p w n Hnone Hn). cbn [fst snd success ok].
    exists (received_row env p). do 2 eexists.
    split; [cbn [db]; apply lookup_insert_eq|]. repeat split. exact Hn.
  - unfold receive_transfer. rewrite Hnone.
    unfold Citizen_create. cbn [citizen_id]. rewrite Hnone.
    unfold citizen_post_save. cbn [is_registered andb].
    unfold Affiliation_create, emit. cbn [db log]. rewrite lookup_insert_eq.
    rewrite Hn. cbn [fst snd success failure Citizen_delete emit db].
    apply lookup_delete_eq.
Qed.








(** ** Outgoing transfer *)



(** The starting point of the examples on outgoing transfers is what
    [send_transfer] produces. *)
Example send_transfer_111 :
  send_transfer env0 "111" target_op2 world_111 =
  (ok MsgTransferInitiated, world_111_sent).
Proof. vm_compute. reflexivity. Qed.

(** [continue_transfer_after_unregister] never writes to the database. *)
Lemma continue_transfer_db env cid w :
  db (snd (continue_transfer_after_unregister env cid w)) = db w.
Proof.
  unfold continue_transfer_after_unregister, get_citizen_documents.
  repeat case_match; reflexivity.
Qed.

(** C6 (amended). The handoff POST.  For a TRANSFERRING citizen (id an
    integer) with a destination URL stored, whatever the destination operator
    answers the database is left as it was: the affiliation stays
    TRANSFERRING and both records are retained.  The call succeeds when the
    answer is 200 or 201 and fails on every other status code, the other 2xx
    codes included. *)
Theorem continue_transfer_after_unregister_outcome :
  forall (env : Env) (cid : string) (w : World) (row : Row) (a : Affiliation)
         (n : Z) (url : string) (code : Z) (text : string),
    db w !! cid = Some row -> affiliation row = Some a ->
    status a = TRANSFERRING -> Py.int cid = Some n ->
    transfer_destination_api_url a = Some url -> url <> "" ->
    http_post env url
      (TransferPayload n (name (citizen row)) (email (citizen row))
         (document_urls env cid) (TRANSFER_CONFIRMATION_URL env)) =
      Reply code text ->
    let '(r, w') := continue_transfer_after_unregister env cid w in
    db w' = db w
    /\ db w' !! cid = Some row
    /\ r = (if (code =? 200) || (code =? 201)
            then ok MsgTransferSent else failure (MsgTargetFailed text))
    /\ (success r = true <-> code = 200 \/ code = 201).
Proof.
  intros env cid w row a n url code text Hrow Haff Hst Hn Hurl Hne Hpost.
  pose proof (continue_transfer_db env cid w) as Hdb.
  unfold continue_transfer_after_unregister, get_citizen_documents in *.
  rewrite Hrow, Haff, Hn, Hurl, Hpost in *.
  destruct (decide (status a <> TRANSFERRING)) as [Hc|_]; [contradiction|].
  destruct url as [|c0 r0]; [congruence|]. cbn [Py.truthy] in *.
  destruct ((code =? 200) || (code =? 201)) eqn:Hcode; cbn [negb snd] in *.
  - repeat split; try (now rewrite ?Hdb). intros _.
    apply orb_true_iff in Hcode as [H|H]; apply Z.eqb_eq in H; auto.
  - repeat split; try (now rewrite ?Hdb); try discriminate.
    intros [-> | ->]; discriminate.
Qed.

(** C6 (witness). The destination answers 200 for citizen 111. *)
Lemma continue_transfer_after_unregister_outcome_witness :
  let '(r, w') := continue_transfer_after_unregister env0 "111" world_111_sent in
  db w' = db world_111_sent
  /\ db w' !! "111" = Some (mkRow citizen_111 (Some affiliation_111_sent))
  /\ r = (if (200 =? 200) || (200 =? 201)
          then ok MsgTransferSent else failure (MsgTargetFailed "OK"))
  /\ (success r = true <-> 200 = 200 \/ 200 = 201).
Proof.
  apply (continue_transfer_after_unregister_outcome env0 "111" world_111_sent
           (mkRow citizen_111 (Some affiliation_111_sent))
           affiliation_111_sent 111 "http://op2/api/transfer/receive/"
           200 "OK");
    try reflexivity; discriminate.
Defined.

(** C6 (counterexample). The destination answers 204, a 2xx code: the call
    returns failure (the affiliation stays TRANSFERRING). *)
Lemma continue_transfer_204_fails :
  http_post env_peer_204 "http://op2/api/transfer/receive/"
    (TransferPayload 111 "Eva" "eva@example.com" []
       "http://localhost:8000/api/v1/citizens/transfer/confirm/") =
    Reply 204 ""
  /\ (200 <= 204 < 300)
  /\ success (fst (continue_transfer_after_unregister env_peer_204 "111"
                     world_111_sent)) = false
  /\ db (snd (continue_transfer_after_unregister env_peer_204 "111"
                world_111_sent)) = db world_111_sent.
Proof. vm_compute. repeat split; intros; discriminate. Qed.

(** ** Registration *)

Lemma validate_citizen_world env cid w :
  snd (validate_citizen env cid w) =
  emit (HttpGet (GOVCARPETA_API_URL env ++ "/apis/validateCitizen/" ++ cid)) w.
Proof. unfold validate_citizen. repeat case_match; reflexivity. Qed.

(** Whatever the input, [register_citizen] leaves the database as it was or
    with both new records in it. *)
Lemma register_citizen_all_or_nothing env d w :
  db (snd (register_citizen env d w)) = db w
  \/ db (snd (register_citizen env d w)) =
       <[cd_citizen_id d := registered_row env d]> (db w).
Proof.
  unfold register_citizen.
  pose proof (validate_citizen_world env (cd_citizen_id d) w) as Hw1.
  destruct (validate_citizen env (cd_citizen_id d) w) as [[ex m] w1].
  cbn [snd] in Hw1. subst w1.
  destruct (db w !! cd_citizen_id d) as [row|] eqn:Hrow.
  - unfold Citizen_create. cbn [citizen_id db emit]. rewrite Hrow.
    repeat case_match; left; reflexivity.
  - destruct ex; [left; reflexivity|].
    unfold Citizen_create, emit. cbn [citizen_id db log]. rewrite Hrow.
    unfold citizen_post_save. cbn [is_registered andb citizen_id].
    unfold Affiliation_create, publish, emit.
    destruct (Py.int (cd_citizen_id d)) as [n|]; cbn [snd db log];
      rewrite lookup_insert_eq; cbn [snd db log];
      right; now rewrite insert_insert_eq.
Qed.




(** ** The verification invariant *)

Create HintDb consistent.

Lemma consistent_insert m cid c oa :
  citizens_consistent m -> verified_iff_status c ->
  citizens_consistent (<[cid := mkRow c oa]> m).
Proof.
  intros Hm Hc k r. rewrite lookup_insert.
  case_decide; [intros [= <-]; exact Hc|apply Hm].
Qed.

Lemma consistent_delete m cid :
  citizens_consistent m -> citizens_consistent (delete cid m).
Proof.
  intros Hm k r Hk. apply lookup_delete_Some in Hk as [_ Hk]. eapply Hm, Hk.
Qed.

Lemma consistent_lookup m cid row :
  citizens_consistent m -> m !! cid = Some row ->
  verified_iff_status (citizen row).
Proof. intros Hm Hr. eapply Hm, Hr. Qed.

Lemma verified_iff_status_set_updated_at t c :
  verified_iff_status c -> verified_iff_status (set_updated_at t c).
Proof. exact id. Qed.

Lemma verified_iff_status_set_is_registered b c :
  verified_iff_status c -> verified_iff_status (set_is_registered b c).
Proof. exact id. Qed.

Lemma verified_iff_status_set_pending_deletion b msg c :
  verified_iff_status c -> verified_iff_status (set_pending_deletion b msg c).
Proof. exact id. Qed.

Lemma verified_iff_status_verified msg c :
  verified_iff_status (set_verification true VERIFICATION_VERIFIED msg c).
Proof. split; reflexivity. Qed.

Lemma verified_iff_status_failed msg c :
  verified_iff_status (set_verification false VERIFICATION_FAILED msg c).
Proof. split; discriminate. Qed.

#[local] Hint Resolve consistent_insert consistent_delete
  verified_iff_status_set_updated_at verified_iff_status_set_is_registered
  verified_iff_status_set_pending_deletion verified_iff_status_verified
  verified_iff_status_failed : consistent.

Lemma citizen_post_save_consistent env created c w :
  citizens_consistent (db w) ->
  citizens_consistent (db (citizen_post_save env created c w)).
Proof.
  intros H. unfold citizen_post_save. repeat case_match; exact H.
Qed.

Lemma Citizen_save_consistent env cid c w :
  citizens_consistent (db w) -> verified_iff_status c ->
  citizens_consistent (db (Citizen_save env cid c w)).
Proof.
  intros H Hc. unfold Citizen_save.
  case_match; apply citizen_post_save_consistent; cbn [db emit];
    auto with consistent.
Qed.

Lemma Citizen_create_consistent env c w w' :
  citizens_consistent (db w) -> verified_iff_status c ->
  Citizen_create env c w = Some w' -> citizens_consistent (db w').
Proof.
  intros H Hc. unfold Citizen_create. case_match; [discriminate|].
  intros [= <-]. apply citizen_post_save_consistent. cbn [db emit].
  apply consistent_insert; [exact H|exact Hc].
Qed.

Lemma Affiliation_save_consistent env cid a w :
  citizens_consistent (db w) ->
  citizens_consistent (db (Affiliation_save env cid a w)).
Proof.
  intros H. unfold Affiliation_save. case_match eqn:Hr; [|exact H].
  cbn [db emit]. apply consistent_insert; [exact H|].
  eapply consistent_lookup; eassumption.
Qed.

Lemma Affiliation_create_consistent env cid a w w' :
  citizens_consistent (db w) ->
  Affiliation_create env cid a w = Some w' -> citizens_consistent (db w').
Proof.
  intros H. unfold Affiliation_create.
  destruct (db w !! cid) as [[c [a0|]]|] eqn:Hr; try discriminate.
  intros [= <-]. cbn [db emit]. apply consistent_insert; [exact H|].
  exact (consistent_lookup _ _ _ H Hr).
Qed.

Lemma Affiliation_delete_consistent cid w :
  citizens_consistent (db w) ->
  citizens_consistent (db (Affiliation_delete cid w)).
Proof.
  intros H. unfold Affiliation_delete. case_match eqn:Hr; [|exact H].
  cbn [db emit]. apply consistent_insert; [exact H|].
  eapply consistent_lookup; eassumption.
Qed.

Lemma Citizen_delete_consistent cid w :
  citizens_consistent (db w) ->
  citizens_consistent (db (Citizen_delete cid w)).
Proof. intros H. cbn [Citizen_delete db emit]. now apply consistent_delete. Qed.

Lemma emit_consistent e w :
  citizens_consistent (db w) -> citizens_consistent (db (emit e w)).
Proof. exact id. Qed.

Lemma publish_consistent env e w :
  citizens_consistent (db w) ->
  citizens_consistent (db (snd (publish env e w))).
Proof. exact id. Qed.

Lemma send_confirmation_consistent url cid st w :
  citizens_consistent (db w) ->
  citizens_consistent (db (send_confirmation url cid st w)).
Proof. now rewrite db_send_confirmation. Qed.

#[local] Hint Resolve Citizen_save_consistent Affiliation_save_consistent
  Affiliation_delete_consistent Citizen_delete_consistent publish_consistent
  emit_consistent send_confirmation_consistent consistent_lookup : consistent.

Lemma gate_consistent env cid w :
  citizens_consistent (db w) ->
  citizens_consistent (db (snd (check_and_complete_transfer env cid w))).
Proof.
  intros H. unfold check_and_complete_transfer, publish.
  repeat case_match; cbn [snd]; eauto 10 with consistent.
Qed.

#[local] Hint Resolve gate_consistent : consistent.

(** C9. Every operation of the service keeps the invariant of the data
    model: if every stored citizen is verified exactly when its verification
    status is "verified", the same holds after [register_citizen],
    [delete_affiliation], [receive_transfer], the documents-ready step, the
    gate, the handoff, [send_transfer], the confirmation callback and the two
    completion consumers (201 and any other status code; success and
    rollback), whatever the outside answers. *)
Theorem operations_keep_verified_iff_status :
  forall (env : Env) (op : Operation) (w : World),
    citizens_consistent (db w) -> citizens_consistent (db (run env op w)).
Proof.
  intros env op w H. destruct op; cbn [run].
  - (* register_citizen *)
    unfold register_citizen, publish.
    pose proof (validate_citizen_world env (cd_citizen_id d) w) as Hw1.
    destruct (validate_citizen env (cd_citizen_id d) w) as [[ex m] w1].
    cbn [snd] in Hw1. subst w1.
    repeat case_match; cbn [snd]; eauto with consistent.
    all: repeat match goal with
         | Hc : Citizen_create _ _ _ = Some _ |- _ =>
             eapply Citizen_create_consistent in Hc;
             [|eauto with consistent|split; discriminate]
         | Ha : Affiliation_create _ _ _ _ = Some _ |- _ =>
             eapply Affiliation_create_consistent in Ha; [|eassumption]
         end; eauto with consistent.
  - (* delete_affiliation *)
    unfold delete_affiliation, publish.
    repeat case_match; cbn [snd]; eauto 12 with consistent.
  - (* receive_transfer *)
    unfold receive_transfer, publish.
    repeat case_match; cbn [snd]; eauto with consistent.
    all: repeat match goal with
         | Hc : Citizen_create _ _ _ = Some _ |- _ =>
             eapply Citizen_create_consistent in Hc;
             [|eauto with consistent|split; discriminate]
         | Ha : Affiliation_create _ _ _ _ = Some _ |- _ =>
             eapply Affiliation_create_consistent in Ha; [|eassumption]
         end; eauto with consistent.
  - (* complete_transfer_after_documents *)
    unfold complete_transfer_after_documents, publish.
    repeat case_match; cbn [snd]; eauto with consistent.
    match goal with
    | Hg : check_and_complete_transfer ?e ?c ?w0 = (_, ?w1) |- _ =>
        change w1 with (snd (check_and_complete_transfer e c w0)) ||
        (replace w1 with (snd (check_and_complete_transfer e c w0))
           by now rewrite Hg)
    end.
    eauto with consistent.
  - (* check_and_complete_transfer *)
    now apply gate_consistent.
  - (* continue_transfer_after_unregister *)
    now rewrite continue_transfer_db.
  - (* send_transfer *)
    unfold send_transfer, publish.
    repeat case_match; cbn [snd]; eauto with consistent.
  - (* handle_transfer_confirmation *)
    unfold handle_transfer_confirmation, publish.
    repeat case_match; cbn [snd]; eauto 10 with consistent.
  - (* handle_register_citizen_completed *)
    unfold handle_register_citizen_completed.
    repeat case_match; eauto 10 with consistent.
  - (* handle_unregister_citizen_completed *)
    unfold handle_unregister_citizen_completed, publish.
    repeat case_match; cbn [snd]; rewrite ?continue_transfer_db;
      eauto 10 with consistent.
Qed.

(** C9 (witness). The authority accepts citizen 222 after all. *)
Lemma operations_keep_verified_iff_status_witness :
  citizens_consistent
    (db (run env0 (OpRegisterCompleted "222" 201) world_222_failed)).
Proof.
  apply (operations_keep_verified_iff_status env0
           (OpRegisterCompleted "222" 201) world_222_failed).
  intros cid row Hrow. cbn [db world_222_failed] in Hrow.
  apply lookup_singleton_Some in Hrow as [_ <-]. split; discriminate.
Defined.

(** ** Rollbacks of an outgoing transfer, evaluated *)

(** C4 (the code at the failing input). After a successful [send_transfer]
    of citizen 111, the failed unregister answer puts the affiliation back to
    AFFILIATED and clears [pending_deletion], and leaves all three
    destination fields as [send_transfer] set them. *)
Lemma unregister_failure_keeps_destination_fields :
  send_transfer env0 "111" target_op2 world_111 =
    (ok MsgTransferInitiated, world_111_sent)
  /\ exists c a,
       db (handle_unregister_citizen_completed env0 unregister_111_failed
             world_111_sent) !! "111" = Some (mkRow c (Some a))
       /\ status a = AFFILIATED
       /\ pending_deletion c = false
       /\ transfer_destination_operator_id a = Some "op-2"
       /\ transfer_destination_operator_name a = Some "Operator Two"
       /\ transfer_destination_api_url a =
            Some "http://op2/api/transfer/receive/"
       /\ untimed_affiliation a <> untimed_affiliation affiliation_111.
Proof.
  split; [vm_compute; reflexivity|].
  eexists _, _. split; [vm_compute; reflexivity|].
  repeat split; discriminate.
Qed.

(** C5 (the code at the failing input). [send_transfer] of citizen 111 with
    a broker that refuses the event returns failure with the status back to
    AFFILIATED and the destination operator id and name cleared; the
    destination API URL and [transfer_started_at] stay as just written, so
    the affiliation differs from the one before the call. *)
Lemma send_transfer_publish_failure_keeps_api_url :
  fst (send_transfer env_broker_down "111" target_op2 world_111) =
    failure MsgPublishFailed
  /\ exists c a,
       db (snd (send_transfer env_broker_down "111" target_op2 world_111))
         !! "111" = Some (mkRow c (Some a))
       /\ status a = AFFILIATED
       /\ transfer_destination_operator_id a = None
       /\ transfer_destination_operator_name a = None
       /\ transfer_destination_api_url a =
            Some "http://op2/api/transfer/receive/"
       /\ transfer_started_at a = Some 1000
       /\ transfer_destination_api_url affiliation_111 = None
       /\ untimed_affiliation a <> untimed_affiliation affiliation_111.
Proof.
  split; [vm_compute; reflexivity|].
  eexists _, _. split; [vm_compute; reflexivity|].
  repeat split; discriminate.
Qed.

(** ** Concrete runs of the gate and of the two events *)

(** C1 (witness). Citizen 999, just received, sees the two events. *)
Lemma documents_ready_register_completed_commute_witness :
  let wA :=
    handle_register_citizen_completed env0 "999" 201
      (snd (complete_transfer_after_documents env0 "999" world_999_received)) in
  let wB :=
    snd (complete_transfer_after_documents env0 "999"
           (handle_register_citizen_completed env0 "999" 201
              world_999_received)) in
  untimed (db wA) = untimed (db wB)
  /\ transfer_done (db wA) "999"
  /\ transfer_done (db wB) "999"
  /\ (forall row a,
        db world_999_received !! "999" = Some row ->
        affiliation row = Some a ->
        documents_ready a = false -> is_verified (citizen row) = false ->
        now env0 = now env0 -> now env0 = now env0 ->
        db wA = db wB).
Proof.
  apply (documents_ready_register_completed_commute world_999_received "999"
           env0 env0 env0 env0).
  do 3 eexists. repeat split; vm_compute; reflexivity.
Defined.

(** C2 (witness). The gate called three times on citizen 555. *)
Lemma check_and_complete_transfer_idempotent_witness :
  check_and_complete_calls "555" [env0; env_broker_down; env0] world_555_ready =
  snd (check_and_complete_transfer env0 "555" world_555_ready).
Proof.
  apply (proj1 (check_and_complete_transfer_idempotent "555" world_555_ready
                  env0 [env_broker_down; env0])).
Defined.

(** * Further properties of the services *)

(** ** [send_transfer] *)

Lemma send_transfer_initiates env cid t w row a n :
  db w !! cid = Some row -> affiliation row = Some a ->
  status a = AFFILIATED -> Py.int cid = Some n ->
  broker_accepts env
    (UnregisterCitizenRequested n (OPERATOR_ID env) (OPERATOR_NAME env)) = true ->
  send_transfer env cid t w =
  (ok MsgTransferInitiated,
   mkWorld
     (<[cid := mkRow (citizen row) (Some (sent_affiliation (now env) t a))]>
        (db w))
     (log w ++ [SaveAffiliation cid TRANSFERRING;
                Publish
                  (UnregisterCitizenRequested n (OPERATOR_ID env)
                     (OPERATOR_NAME env)) true])).
Proof.
  intros Hrow Haff Hst Hn Hb. unfold send_transfer. rewrite Hrow, Haff.
  destruct (decide (status a <> AFFILIATED)) as [Hc|_]; [contradiction|].
  rewrite (Affiliation_save_found env cid w row Hrow), Hn.
  unfold publish, emit. cbn [db log]. rewrite Hb. cbn [negb].
  rewrite <- !app_assoc. reflexivity.
Qed.

(** What a successful [send_transfer] found and left. *)
Lemma send_transfer_success env cid t w :
  success (fst (send_transfer env cid t w)) = true ->
  exists row a n,
    db w !! cid = Some row /\ affiliation row = Some a /\
    status a = AFFILIATED /\ Py.int cid = Some n /\
    broker_accepts env
      (UnregisterCitizenRequested n (OPERATOR_ID env) (OPERATOR_NAME env))
      = true.
Proof.
  unfold send_transfer.
  destruct (db w !! cid) as [row|] eqn:Hrow; [|discriminate].
  destruct (affiliation row) as [a|] eqn:Haff; [|discriminate].
  destruct (decide (status a <> AFFILIATED)) as [Hc|Hst]; [discriminate|].
  destruct (Py.int cid) as [n|] eqn:Hn; [|discriminate].
  unfold publish. cbn [fst snd].
  destruct (broker_accepts env _) eqn:Hb; [|discriminate].
  intros _. exists row, a, n. repeat split; try assumption.
  now destruct (decide (status a = AFFILIATED)).
Qed.

(** X1. A transfer under way cannot be started again.  After a successful
    [send_transfer] every further [send_transfer] for the same citizen,
    whatever its target, is refused with the status TRANSFERRING in the
    message and leaves the world as it was: the destination recorded by the
    first call stays. *)
Theorem send_transfer_twice_rejected :
  forall (env1 env2 : Env) (cid : string) (t1 t2 : TargetOperator) (w : World),
    success (fst (send_transfer env1 cid t1 w)) = true ->
    let w1 := snd (send_transfer env1 cid t1 w) in
    send_transfer env2 cid t2 w1 =
      (failure (MsgCannotBeTransferred TRANSFERRING), w1)
    /\ exists c a,
         db w1 !! cid = Some (mkRow c (Some a)) /\
         transfer_destination_operator_id a = Some (to_operator_id t1) /\
         transfer_destination_operator_name a = Some (to_operator_name t1) /\
         transfer_destination_api_url a = Some (to_api_url t1).
Proof.
  intros env1 env2 cid t1 t2 w Hok w1.
  destruct (send_transfer_success _ _ _ _ Hok)
    as (row & a & n & Hrow & Haff & Hst & Hn & Hb).
  subst w1. rewrite (send_transfer_initiates env1 cid t1 w row a n) by assumption.
  cbn [snd]. split.
  - unfold send_transfer. cbn [db]. rewrite lookup_insert_eq. cbn [affiliation].
    destruct (decide _) as [_|Hc]; [reflexivity|].
    exfalso. apply Hc. cbn. discriminate.
  - do 2 eexists. split; [cbn [db]; apply lookup_insert_eq|]. repeat split.
Qed.

(** X1 (witness). Citizen 111 is sent to operator two, then to operator
    two again. *)
Lemma send_transfer_twice_rejected_witness :
  let w1 := snd (send_transfer env0 "111" target_op2 world_111) in
  send_transfer env0 "111" target_op2 w1 =
    (failure (MsgCannotBeTransferred TRANSFERRING), w1)
  /\ exists c a,
       db w1 !! "111" = Some (mkRow c (Some a)) /\
       transfer_destination_operator_id a = Some (to_operator_id target_op2) /\
       transfer_destination_operator_name a = Some (to_operator_name target_op2) /\
       transfer_destination_api_url a = Some (to_api_url target_op2).
Proof.
  apply (send_transfer_twice_rejected env0 env0 "111" target_op2 target_op2
           world_111).
  vm_compute. reflexivity.
Defined.

(** X2. The confirmation callback with a status other than 1, after a
    successful [send_transfer]: the call answers failure "rolled back", the
    citizen is kept as it was, the affiliation is AFFILIATED again with the
    destination operator id and name cleared, and the destination API URL and
    [transfer_started_at] written by [send_transfer] are still there. *)
Theorem transfer_confirmation_failure_rolls_back :
  forall (env1 env2 : Env) (cid : string) (t : TargetOperator) (st : Z)
         (w : World),
    success (fst (send_transfer env1 cid t w)) = true -> st <> 1 ->
    let w1 := snd (send_transfer env1 cid t w) in
    let '(r, w2) := handle_transfer_confirmation env2 cid st w1 in
    r = failure MsgRolledBack
    /\ log w2 = (log w1 ++ [SaveAffiliation cid AFFILIATED])%list
    /\ exists row a a2,
         db w !! cid = Some row /\ affiliation row = Some a /\
         db w2 = <[cid := mkRow (citizen row) (Some a2)]> (db w) /\
         status a2 = AFFILIATED /\
         transfer_destination_operator_id a2 = None /\
         transfer_destination_operator_name a2 = None /\
         transfer_destination_api_url a2 = Some (to_api_url t) /\
         transfer_started_at a2 = Some (now env1) /\
         documents_ready a2 = documents_ready a /\
         transfer_confirmation_url a2 = transfer_confirmation_url a.
Proof.
  intros env1 env2 cid t st w Hok Hst1 w1.
  destruct (send_transfer_success _ _ _ _ Hok)
    as (row & a & n & Hrow & Haff & Hst & Hn & Hb).
  subst w1. rewrite (send_transfer_initiates env1 cid t w row a n) by assumption.
  cbn [snd]. unfold handle_transfer_confirmation. cbn [db].
  rewrite lookup_insert_eq. cbn [affiliation].
  apply Z.eqb_neq in Hst1. rewrite Hst1.
  erewrite Affiliation_save_found by (cbn [db]; apply lookup_insert_eq).
  cbn [db log citizen]. rewrite insert_insert_eq.
  split; [reflexivity|]. split; [reflexivity|].
  exists row, a. eexists. repeat split; try eassumption; reflexivity.
Qed.

(** X2 (witness). The destination refuses citizen 111. *)
Lemma transfer_confirmation_failure_rolls_back_witness :
  let w1 := snd (send_transfer env0 "111" target_op2 world_111) in
  let '(r, w2) := handle_transfer_confirmation env0 "111" 0 w1 in
  r = failure MsgRolledBack
  /\ log w2 = (log w1 ++ [SaveAffiliation "111" AFFILIATED])%list
  /\ exists row a a2,
       db world_111 !! "111" = Some row /\ affiliation row = Some a /\
       db w2 = <[ "111" := mkRow (citizen row) (Some a2)]> (db world_111) /\
       status a2 = AFFILIATED /\
       transfer_destination_operator_id a2 = None /\
       transfer_destination_operator_name a2 = None /\
       transfer_destination_api_url a2 = Some (to_api_url target_op2) /\
       transfer_started_at a2 = Some (now env0) /\
       documents_ready a2 = documents_ready a /\
       transfer_confirmation_url a2 = transfer_confirmation_url a.
Proof.
  apply (transfer_confirmation_failure_rolls_back env0 env0 "111" target_op2 0
           world_111); [vm_compute; reflexivity|discriminate].
Defined.

(** ** [receive_transfer] *)

(** X3. A citizen is received once.  After a successful [receive_transfer]
    every further request with the same id is refused as already existing
    and leaves the world as it was. *)
Theorem receive_transfer_twice_rejected :
  forall (env1 env2 : Env) (p p' : TransferData) (w : World),
    success (fst (receive_transfer env1 p w)) = true ->
    str_id (td_id p') = str_id (td_id p) ->
    receive_transfer env2 p' (snd (receive_transfer env1 p w)) =
      (failure MsgAlreadyExists, snd (receive_transfer env1 p w)).
Proof.
  intros env1 env2 p p' w Hok Hid.
  destruct (db w !! str_id (td_id p)) as [row|] eqn:Hrow.
  { revert Hok. unfold receive_transfer. rewrite Hrow. discriminate. }
  pose proof (receive_transfer_incoming env1 p w Hrow) as Hin.
  rewrite Hok in Hin. destruct Hin as (r & a & n & Hr & _).
  unfold receive_transfer at 1. rewrite Hid, Hr. reflexivity.
Qed.

(** X3 (witness). Citizen 999 is sent twice. *)
Lemma receive_transfer_twice_rejected_witness :
  receive_transfer env0 payload_999_no_callback
    (snd (receive_transfer env0 payload_999 world0)) =
  (failure MsgAlreadyExists, snd (receive_transfer env0 payload_999 world0)).
Proof.
  apply (receive_transfer_twice_rejected env0 env0 payload_999
           payload_999_no_callback world0); reflexivity.
Defined.

(** X4. No orphan records.  When [receive_transfer] returns failure the
    database is exactly the one it was given: either the citizen was already
    there and nothing was written, or the row written for an id that
    [int] rejects has been deleted again. *)
Theorem receive_transfer_failure_leaves_database :
  forall (env : Env) (p : TransferData) (w : World),
    success (fst (receive_transfer env p w)) = false ->
    db (snd (receive_transfer env p w)) = db w.
Proof.
  intros env p w. unfold receive_transfer.
  destruct (db w !! str_id (td_id p)) as [row|] eqn:Hrow; [reflexivity|].
  unfold Citizen_create. cbn [citizen_id]. rewrite Hrow.
  unfold citizen_post_save. cbn [is_registered andb].
  unfold Affiliation_create, emit. cbn [db log]. rewrite lookup_insert_eq.
  destruct (Py.int (str_id (td_id p))) as [n|]; [discriminate|].
  intros _. cbn [snd Citizen_delete emit db].
  rewrite !delete_insert_eq. now apply delete_id.
Qed.

(** X4 (witness). A request whose id is no number. *)
Lemma receive_transfer_failure_leaves_database_witness :
  db (snd (receive_transfer env0
             (mkTransferData (JStr "abc") "Ana" "ana@example.com" []
                (Some "http://source/confirm")) world_111)) =
  db world_111.
Proof.
  apply (receive_transfer_failure_leaves_database env0
           (mkTransferData (JStr "abc") "Ana" "ana@example.com" []
              (Some "http://source/confirm")) world_111).
  vm_compute. reflexivity.
Defined.



(** ** [register_citizen] *)

Lemma register_citizen_known env d w row :
  db w !! cd_citizen_id d = Some row ->
  is_verified (citizen row) = true
  \/ verification_status (citizen row) = VERIFICATION_PENDING ->
  register_citizen env d w =
    (failure (if is_verified (citizen row)
              then MsgAlreadyVerified else MsgAlreadyPending), w).
Proof.
  intros Hrow H. unfold register_citizen. rewrite Hrow.
  destruct (is_verified (citizen row)); [reflexivity|].
  destruct H as [H|H]; [discriminate|].
  destruct (decide _) as [_|Hc]; [reflexivity|contradiction].
Qed.

Lemma register_citizen_fresh_db env d w n :
  db w !! cd_citizen_id d = None ->
  Py.int (cd_citizen_id d) = Some n ->
  fst (fst (validate_citizen env (cd_citizen_id d) w)) = false ->
  db (snd (register_citizen env d w)) =
  <[cd_citizen_id d := registered_row env d]> (db w).
Proof.
  intros Hnone Hn Hneg.
  destruct (register_citizen_all_or_nothing env d w) as [H|H]; [|exact H].
  exfalso. revert H. unfold register_citizen. rewrite Hnone.
  pose proof (validate_citizen_world env (cd_citizen_id d) w) as Hw1.
  destruct (validate_citizen env (cd_citizen_id d) w) as [[ex m] w1].
  cbn [fst snd] in Hneg, Hw1. subst ex w1.
  unfold Citizen_create, emit. cbn [citizen_id db log]. rewrite Hnone.
  unfold citizen_post_save. cbn [is_registered andb citizen_id]. rewrite Hn.
  unfold Affiliation_create, publish, emit. cbn [snd db log].
  rewrite lookup_insert_eq, ?Hn. cbn [snd db log]. rewrite insert_insert_eq.
  intros H. apply (f_equal (fun m => m !! cd_citizen_id d)) in H.
  rewrite lookup_insert_eq, Hnone in H. discriminate.
Qed.

(** X6. A citizen that is stored and verified, or stored and still pending,
    is refused before anything is asked outside: the call returns failure
    ("already verified", else "already pending") and the world, log
    included, is the one it was given. *)
Theorem register_citizen_rejects_registered :
  forall (env : Env) (d : CitizenData) (w : World) (row : Row),
    db w !! cd_citizen_id d = Some row ->
    is_verified (citizen row) = true
    \/ verification_status (citizen row) = VERIFICATION_PENDING ->
    register_citizen env d w =
      (failure (if is_verified (citizen row)
                then MsgAlreadyVerified else MsgAlreadyPending), w).
Proof.
  intros env d w row Hrow H. now apply register_citizen_known.
Qed.

(** X6 (witness). Citizen 111 registers again. *)
Lemma register_citizen_rejects_registered_witness :
  register_citizen env0
    (mkCitizenData "111" "Eva" "Calle 9" "eva@example.com" "op-1"
       "Operator One") world_111 =
  (failure MsgAlreadyVerified, world_111).
Proof.
  apply (register_citizen_rejects_registered env0
           (mkCitizenData "111" "Eva" "Calle 9" "eva@example.com" "op-1"
              "Operator One") world_111
           (mkRow citizen_111 (Some affiliation_111)));
    [reflexivity|left; reflexivity].
Defined.

(** X7. A citizen the external registry knows (answer 200 with a body) and
    that is not refused as registered locally is refused with the registry's
    text: one GET is made and the database is not written. *)
Theorem register_citizen_rejects_external :
  forall (env : Env) (d : CitizenData) (w : World) (text : string),
    db w !! cd_citizen_id d = None ->
    http_get env
      (GOVCARPETA_API_URL env ++ "/apis/validateCitizen/" ++ cd_citizen_id d) =
      Reply 200 text ->
    text <> "" ->
    register_citizen env d w =
      (failure (MsgExistsExternally text),
       mkWorld (db w)
         (log w ++ [HttpGet (GOVCARPETA_API_URL env ++ "/apis/validateCitizen/"
                             ++ cd_citizen_id d)])).
Proof.
  intros env d w text Hnone Hget Hne. unfold register_citizen. rewrite Hnone.
  unfold validate_citizen. rewrite Hget. apply String.eqb_neq in Hne.
  rewrite Hne. reflexivity.
Qed.

(** X7 (witness). The registry knows citizen 333. *)
Lemma register_citizen_rejects_external_witness :
  register_citizen env_known_externally data_333 world0 =
    (failure (MsgExistsExternally "Citizen found"),
     mkWorld (db world0)
       (log world0 ++ [HttpGet "http://govcarpeta/apis/validateCitizen/333"])).
Proof.
  apply (register_citizen_rejects_external env_known_externally data_333
           world0 "Citizen found"); [reflexivity|reflexivity|discriminate].
Defined.

(** X8. Registration followed by the authority's answer 201, read back with
    the status query: the citizen is reported AFFILIATED with the operator of
    the request, affiliated at the time of registration, no destination. *)
Theorem register_then_completed_is_affiliated :
  forall (env1 env2 : Env) (d : CitizenData) (w : World) (n : Z),
    db w !! cd_citizen_id d = None ->
    Py.int (cd_citizen_id d) = Some n ->
    fst (fst (validate_citizen env1 (cd_citizen_id d) w)) = false ->
    get_affiliation_status (cd_citizen_id d)
      (handle_register_citizen_completed env2 (cd_citizen_id d) 201
         (snd (register_citizen env1 d w))) =
    StatusData
      (mkAffiliationStatusData (cd_citizen_id d) (cd_name d) (cd_email d)
         (cd_operator_id d) (cd_operator_name d) AFFILIATED (now env1)
         None None).
Proof.
  intros env1 env2 d w n Hnone Hn Hneg.
  pose proof (register_citizen_fresh_db env1 d w n Hnone Hn Hneg) as Hdb.
  destruct (register_citizen env1 d w) as [r w1]. cbn [snd] in *.
  assert (Hrow : db w1 !! cd_citizen_id d = Some (registered_row env1 d))
    by (rewrite Hdb; apply lookup_insert_eq).
  unfold get_affiliation_status, Affiliation_first.
  rewrite (register_completed_db env2 _ w1 _ Hrow (int_nonempty _ _ Hn)).
  rewrite lookup_insert_eq. reflexivity.
Qed.

(** X8 (witness). Citizen 333 registers and is accepted. *)
Lemma register_then_completed_is_affiliated_witness :
  get_affiliation_status "333"
    (handle_register_citizen_completed env0 "333" 201
       (snd (register_citizen env0 data_333 world0))) =
  StatusData
    (mkAffiliationStatusData "333" "Sol" "sol@example.com" "op-1"
       "Operator One" AFFILIATED (now env0) None None).
Proof.
  apply (register_then_completed_is_affiliated env0 env0 data_333 world0 333);
    reflexivity.
Defined.



(** ** [delete_affiliation] and the unregister answer *)

Lemma delete_affiliation_success env cid w :
  success (fst (delete_affiliation env cid w)) = true ->
  exists row n,
    db w !! cid = Some row /\ pending_deletion (citizen row) = false /\
    Py.int cid = Some n /\
    broker_accepts env
      (UnregisterCitizenRequested n (operator_id (citizen row))
         (operator_name (citizen row))) = true.
Proof.
  unfold delete_affiliation.
  destruct (db w !! cid) as [row|] eqn:Hrow; [|discriminate].
  destruct (pending_deletion (citizen row)) eqn:Hp; [discriminate|].
  destruct (Py.int cid) as [n|] eqn:Hn; [|discriminate].
  unfold publish. cbn [fst snd].
  destruct (broker_accepts env _) eqn:Hb; [|discriminate].
  intros _. exists row, n. auto.
Qed.

Lemma delete_affiliation_marks env cid w row a n :
  db w !! cid = Some row -> affiliation row = Some a ->
  pending_deletion (citizen row) = false -> Py.int cid = Some n ->
  broker_accepts env
    (UnregisterCitizenRequested n (operator_id (citizen row))
       (operator_name (citizen row))) = true ->
  delete_affiliation env cid w =
  (ok MsgMarkedForDeletion,
   mkWorld (<[cid := marked_row (now env) (citizen row) a]> (db w))
     (log w ++ [SaveCitizen cid; SaveAffiliation cid PENDING_DELETION;
                Publish
                  (UnregisterCitizenRequested n (operator_id (citizen row))
                     (operator_name (citizen row))) true])).
Proof.
  intros Hrow Haff Hp Hn Hb. unfold delete_affiliation.
  rewrite Hrow, Hp, Hn.
  rewrite (Citizen_save_found env cid w row Hrow).
  erewrite Affiliation_first_found by (cbn [db]; apply lookup_insert_eq).
  cbn [affiliation]. rewrite Haff.
  erewrite Affiliation_save_found by (cbn [db]; apply lookup_insert_eq).
  unfold publish, emit. cbn [db log citizen]. rewrite Hb, insert_insert_eq.
  rewrite <- !app_assoc. reflexivity.
Qed.

(** X10. A deletion under way cannot be asked for again.  After a successful
    [delete_affiliation] of a citizen with its affiliation, the citizen is
    pending deletion with status PENDING_DELETION, and every further
    [delete_affiliation] is refused and leaves the world as it was. *)
Theorem delete_affiliation_twice_rejected :
  forall (env1 env2 : Env) (cid : string) (w : World) (row : Row)
         (a : Affiliation),
    db w !! cid = Some row -> affiliation row = Some a ->
    success (fst (delete_affiliation env1 cid w)) = true ->
    let w1 := snd (delete_affiliation env1 cid w) in
    db w1 = <[cid := marked_row (now env1) (citizen row) a]> (db w)
    /\ delete_affiliation env2 cid w1 = (failure MsgAlreadyPendingDeletion, w1).
Proof.
  intros env1 env2 cid w row a Hrow Haff Hok w1.
  destruct (delete_affiliation_success _ _ _ Hok)
    as (row' & n & Hrow' & Hp & Hn & Hb).
  rewrite Hrow in Hrow'. injection Hrow' as <-.
  subst w1. rewrite (delete_affiliation_marks env1 cid w row a n) by assumption.
  cbn [snd db]. split; [reflexivity|].
  unfold delete_affiliation. cbn [db]. rewrite lookup_insert_eq. reflexivity.
Qed.

(** X10 (witness). Citizen 111 is deleted twice. *)
Lemma delete_affiliation_twice_rejected_witness :
  let w1 := snd (delete_affiliation env0 "111" world_111) in
  db w1 = <[ "111" := marked_row (now env0) citizen_111 affiliation_111]>
            (db world_111)
  /\ delete_affiliation env0 "111" w1 = (failure MsgAlreadyPendingDeletion, w1).
Proof.
  apply (delete_affiliation_twice_rejected env0 env0 "111" world_111
           (mkRow citizen_111 (Some affiliation_111)) affiliation_111);
    reflexivity.
Defined.

(** X11. The rollback of [delete_affiliation] when the broker refuses the
    event: the call returns failure and nothing was published successfully;
    the citizen is saved not pending with its verification message erased,
    and the affiliation is saved AFFILIATED whatever its status was before
    the call. *)
Theorem delete_affiliation_publish_failure :
  forall (env : Env) (cid : string) (w : World) (row : Row) (a : Affiliation)
         (n : Z),
    db w !! cid = Some row -> affiliation row = Some a ->
    pending_deletion (citizen row) = false -> Py.int cid = Some n ->
    broker_accepts env
      (UnregisterCitizenRequested n (operator_id (citizen row))
         (operator_name (citizen row))) = false ->
    delete_affiliation env cid w =
      (failure MsgPublishFailed,
       mkWorld
         (<[cid :=
              mkRow
                (set_updated_at (now env)
                   (set_pending_deletion false None (citizen row)))
                (Some (set_status_changed_at (now env)
                         (set_status AFFILIATED a)))]> (db w))
         (log w ++ [SaveCitizen cid; SaveAffiliation cid PENDING_DELETION;
                    Publish
                      (UnregisterCitizenRequested n
                         (operator_id (citizen row))
                         (operator_name (citizen row))) false;
                    SaveCitizen cid; SaveAffiliation cid AFFILIATED])).
Proof.
  intros env cid w row a n Hrow Haff Hp Hn Hb. unfold delete_affiliation.
  rewrite Hrow, Hp, Hn.
  rewrite (Citizen_save_found env cid w row Hrow).
  erewrite Affiliation_first_found by (cbn [db]; apply lookup_insert_eq).
  cbn [affiliation]. rewrite Haff.
  erewrite Affiliation_save_found by (cbn [db]; apply lookup_insert_eq).
  unfold publish, emit. cbn [db log citizen]. rewrite Hb.
  erewrite Citizen_save_found by (cbn [db]; apply lookup_insert_eq).
  erewrite Affiliation_save_found by (cbn [db]; apply lookup_insert_eq).
  cbn [db log citizen affiliation]. rewrite !insert_insert_eq.
  rewrite <- !app_assoc. reflexivity.
Qed.

(** X11 (witness). Citizen 222, whose status is FAILED, is deleted while the
    broker is down: the status comes back as AFFILIATED. *)
Lemma delete_affiliation_publish_failure_witness :
  status affiliation_222_failed = FAILED
  /\ delete_affiliation env_broker_down "222" world_222_failed =
       (failure MsgPublishFailed,
        mkWorld
          (<[ "222" :=
               mkRow
                 (set_updated_at (now env_broker_down)
                    (set_pending_deletion false None citizen_222_failed))
                 (Some (set_status_changed_at (now env_broker_down)
                          (set_status AFFILIATED affiliation_222_failed)))]>
             (db world_222_failed))
          (log world_222_failed
             ++ [SaveCitizen "222"; SaveAffiliation "222" PENDING_DELETION;
                 Publish
                   (UnregisterCitizenRequested 222 "op-1" "Operator One")
                   false;
                 SaveCitizen "222"; SaveAffiliation "222" AFFILIATED])).
Proof.
  split; [reflexivity|].
  apply (delete_affiliation_publish_failure env_broker_down "222"
           world_222_failed
           (mkRow citizen_222_failed (Some affiliation_222_failed))
           affiliation_222_failed 222);
    reflexivity.
Defined.



(** X13. A deletion the authority refuses.  After a successful
    [delete_affiliation] the failed unregister answer keeps both records: the
    citizen is no longer pending deletion and its verification message
    carries the error text of the answer, the affiliation is AFFILIATED and
    otherwise as before the deletion was asked for; nothing is published or
    deleted. *)
Theorem refused_deletion_is_rolled_back :
  forall (env1 env2 : Env) (cid : string) (w : World) (row : Row)
         (a : Affiliation) (m : UnregisterCompleted),
    db w !! cid = Some row -> affiliation row = Some a ->
    success (fst (delete_affiliation env1 cid w)) = true ->
    um_id m = cid -> um_success m = false ->
    let w1 := snd (delete_affiliation env1 cid w) in
    let w2 := handle_unregister_citizen_completed env2 m w1 in
    log w2 = (log w1 ++ [SaveCitizen cid; SaveAffiliation cid AFFILIATED])%list
    /\ exists c2 a2,
         db w2 = <[cid := mkRow c2 (Some a2)]> (db w) /\
         pending_deletion c2 = false /\
         verification_message c2 =
           Some ("Unregister failed: "
                 ++ default (um_message m) (um_error_message m)) /\
         is_verified c2 = is_verified (citizen row) /\
         verification_status c2 = verification_status (citizen row) /\
         is_registered c2 = is_registered (citizen row) /\
         untimed_affiliation a2 = untimed_affiliation (set_status AFFILIATED a).
Proof.
  intros env1 env2 cid w row a m Hrow Haff Hok Hid Hs w1 w2.
  destruct (delete_affiliation_success _ _ _ Hok)
    as (row' & n & Hrow' & Hp & Hn & Hb).
  rewrite Hrow in Hrow'. injection Hrow' as <-.
  subst w2 w1.
  rewrite (delete_affiliation_marks env1 cid w row a n) by assumption.
  cbn [snd]. unfold handle_unregister_citizen_completed. rewrite Hid, Hs.
  pose proof (int_nonempty _ _ Hn) as Hne. apply String.eqb_neq in Hne.
  rewrite Hne. cbn [db]. rewrite lookup_insert_eq.
  erewrite Citizen_save_found by (cbn [db]; apply lookup_insert_eq).
  erewrite Affiliation_first_found by (cbn [db]; apply lookup_insert_eq).
  cbn [affiliation marked_row].
  erewrite Affiliation_save_found by (cbn [db]; apply lookup_insert_eq).
  cbn [db log citizen]. rewrite !insert_insert_eq, <- !app_assoc.
  split; [reflexivity|]. do 2 eexists. split; [reflexivity|].
  repeat split.
Qed.

(** X13 (witness). The authority refuses to unregister citizen 111. *)
Lemma refused_deletion_is_rolled_back_witness :
  let w1 := snd (delete_affiliation env0 "111" world_111) in
  let w2 := handle_unregister_citizen_completed env0 unregister_111_failed w1 in
  log w2 = (log w1 ++ [SaveCitizen "111"; SaveAffiliation "111" AFFILIATED])%list
  /\ exists c2 a2,
       db w2 = <[ "111" := mkRow c2 (Some a2)]> (db world_111) /\
       pending_deletion c2 = false /\
       verification_message c2 =
         Some ("Unregister failed: "
               ++ default (um_message unregister_111_failed)
                    (um_error_message unregister_111_failed)) /\
       is_verified c2 = is_verified citizen_111 /\
       verification_status c2 = verification_status citizen_111 /\
       is_registered c2 = is_registered citizen_111 /\
       untimed_affiliation a2 =
         untimed_affiliation (set_status AFFILIATED affiliation_111).
Proof.
  apply (refused_deletion_is_rolled_back env0 env0 "111" world_111
           (mkRow citizen_111 (Some affiliation_111)) affiliation_111
           unregister_111_failed); reflexivity.
Defined.

(** ** The outgoing transfer from request to confirmation *)

Lemma continue_transfer_world env cid w row a n url :
  db w !! cid = Some row -> affiliation row = Some a ->
  status a = TRANSFERRING -> Py.int cid = Some n ->
  transfer_destination_api_url a = Some url -> url <> "" ->
  snd (continue_transfer_after_unregister env cid w) =
  mkWorld (db w)
    (log w ++ [FetchDocuments cid;
               HttpPost url
                 (TransferPayload n (name (citizen row)) (email (citizen row))
                    (document_urls env cid) (TRANSFER_CONFIRMATION_URL env))]).
Proof.
  intros Hrow Haff Hst Hn Hurl Hne.
  unfold continue_transfer_after_unregister, get_citizen_documents.
  rewrite Hrow, Haff, Hn, Hurl.
  destruct (decide (status a <> TRANSFERRING)) as [Hc|_]; [contradiction|].
  destruct url as [|c0 r0]; [congruence|]. cbn [Py.truthy].
  unfold emit. cbn [db log]. rewrite <- !app_assoc.
  repeat case_match; reflexivity.
Qed.

(** X14. The outgoing transfer, end to end.  For an AFFILIATED citizen
    stored under the decimal form of its number: [send_transfer] (the broker
    taking the event), then the successful unregister answer, then the
    destination's callback [{id, req_status: 1}] through the confirm view.
    The handoff is one POST to the destination URL carrying the citizen's
    number, name, email, documents and this operator's callback URL; while
    the callback is awaited both records are kept; the callback, which names
    the citizen by the number sent in the handoff, finds it, is answered 200
    and leaves the original database without the citizen. *)
Theorem outgoing_transfer_round_trip :
  forall (env1 env2 env3 : Env) (z : Z) (t : TargetOperator) (w : World)
         (row : Row) (a : Affiliation) (m : UnregisterCompleted),
    db w !! Py.str z = Some row -> affiliation row = Some a ->
    status a = AFFILIATED ->
    broker_accepts env1
      (UnregisterCitizenRequested z (OPERATOR_ID env1) (OPERATOR_NAME env1))
      = true ->
    to_api_url t <> "" ->
    um_id m = Py.str z -> um_success m = true ->
    let cid := Py.str z in
    let w1 := snd (send_transfer env1 cid t w) in
    let w2 := handle_unregister_citizen_completed env2 m w1 in
    let '(http, w3) :=
      TransferConfirmView_post env3
        (mkConfirmRequest (Some (JInt z)) (Some 1)) w2 in
    db w2 = db w1
    /\ is_Some (db w2 !! cid)
    /\ http = 200
    /\ db w3 = delete cid (db w)
    /\ log w3 =
         (log w
            ++ [SaveAffiliation cid TRANSFERRING;
                Publish
                  (UnregisterCitizenRequested z (OPERATOR_ID env1)
                     (OPERATOR_NAME env1)) true;
                FetchDocuments cid;
                HttpPost (to_api_url t)
                  (TransferPayload z (name (citizen row)) (email (citizen row))
                     (document_urls env2 cid) (TRANSFER_CONFIRMATION_URL env2));
                SaveAffiliation cid TRANSFERRED;
                Publish (UserTransferred z)
                  (broker_accepts env3 (UserTransferred z));
                DeleteAffiliation cid;
                DeleteCitizen cid])%list.
Proof.
  intros env1 env2 env3 z t w row a m Hrow Haff Hst Hb Hurl Hid Hs cid w1 w2.
  pose proof (int_str z) as Hn.
  unfold TransferConfirmView_post. cbn [cr_id cr_req_status str_id].
  change (Py.str z) with cid in Hrow, Hid, Hn |- *. clearbody cid.
  pose proof (int_nonempty _ _ Hn) as Hne. apply String.eqb_neq in Hne.
  assert (Hw1 : w1 =
    mkWorld
      (<[cid := mkRow (citizen row) (Some (sent_affiliation (now env1) t a))]>
         (db w))
      (log w ++ [SaveAffiliation cid TRANSFERRING;
                 Publish
                   (UnregisterCitizenRequested z (OPERATOR_ID env1)
                      (OPERATOR_NAME env1)) true])).
  { unfold w1. now rewrite (send_transfer_initiates env1 cid t w row a z). }
  assert (Hw2 : w2 =
    mkWorld (db w1)
      (log w1 ++ [FetchDocuments cid;
                  HttpPost (to_api_url t)
                    (TransferPayload z (name (citizen row))
                       (email (citizen row)) (document_urls env2 cid)
                       (TRANSFER_CONFIRMATION_URL env2))])).
  { unfold w2, handle_unregister_citizen_completed. rewrite Hid, Hs, Hne.
    rewrite Hw1. cbn [db]. rewrite lookup_insert_eq.
    erewrite Affiliation_first_found by (cbn [db]; apply lookup_insert_eq).
    cbn [affiliation is_transferring sent_affiliation status
           set_status_changed_at set_transfer_started_at
           set_destination_api_url set_destination_operator set_status].
    rewrite bool_decide_eq_true_2 by reflexivity.
    rewrite (continue_transfer_world env2 cid _
               (mkRow (citizen row) (Some (sent_affiliation (now env1) t a)))
               (sent_affiliation (now env1) t a) z (to_api_url t));
      [reflexivity|cbn [db]; apply lookup_insert_eq|reflexivity|reflexivity
      |exact Hn|reflexivity|exact Hurl]. }
  unfold handle_transfer_confirmation. rewrite Hw2, Hw1. cbn [db log].
  rewrite lookup_insert_eq. cbn [affiliation Z.eqb Pos.eqb].
  erewrite Affiliation_save_found by (cbn [db]; apply lookup_insert_eq).
  rewrite Hn. unfold publish, Citizen_delete, Affiliation_delete, emit.
  cbn [snd db log]. rewrite lookup_insert_eq. cbn [db log success ok].
  split; [reflexivity|]. split; [rewrite ?lookup_insert_eq; eauto|].
  split; [reflexivity|]. split.
  - now rewrite !delete_insert_eq.
  - now rewrite <- !app_assoc.
Qed.

(** X14 (witness). Citizen 111 moves to operator two. *)
Lemma outgoing_transfer_round_trip_witness :
  let cid := Py.str 111 in
  let w1 := snd (send_transfer env0 cid target_op2 world_111) in
  let w2 := handle_unregister_citizen_completed env0 unregister_111_done w1 in
  let '(http, w3) :=
    TransferConfirmView_post env0
      (mkConfirmRequest (Some (JInt 111)) (Some 1)) w2 in
  db w2 = db w1
  /\ is_Some (db w2 !! cid)
  /\ http = 200
  /\ db w3 = delete cid (db world_111)
  /\ log w3 =
       (log world_111
          ++ [SaveAffiliation cid TRANSFERRING;
              Publish
                (UnregisterCitizenRequested 111 (OPERATOR_ID env0)
                   (OPERATOR_NAME env0)) true;
              FetchDocuments cid;
              HttpPost (to_api_url target_op2)
                (TransferPayload 111 (name citizen_111) (email citizen_111)
                   (document_urls env0 cid) (TRANSFER_CONFIRMATION_URL env0));
              SaveAffiliation cid TRANSFERRED;
              Publish (UserTransferred 111)
                (broker_accepts env0 (UserTransferred 111));
              DeleteAffiliation cid;
              DeleteCitizen cid])%list.
Proof.
  apply (outgoing_transfer_round_trip env0 env0 env0 111 target_op2 world_111
           (mkRow citizen_111 (Some affiliation_111)) affiliation_111
           unregister_111_done);
    try reflexivity; discriminate.
Defined.

(** ** Other citizens are left alone *)

Section Frame.

Context (k : string) (x : option Row).

Lemma frame_emit e w : db w !! k = x -> db (emit e w) !! k = x.
Proof. exact id. Qed.

Lemma frame_publish env e w :
  db w !! k = x -> db (snd (publish env e w)) !! k = x.
Proof. exact id. Qed.

Lemma frame_citizen_post_save env created c w :
  db w !! k = x -> db (citizen_post_save env created c w) !! k = x.
Proof. intros H. unfold citizen_post_save. repeat case_match; exact H. Qed.

Lemma frame_Citizen_save env cid c w :
  k <> cid -> db w !! k = x -> db (Citizen_save env cid c w) !! k = x.
Proof.
  intros Hk H. unfold Citizen_save.
  case_match; apply frame_citizen_post_save; cbn [db emit];
    now rewrite lookup_insert_ne.
Qed.

Lemma frame_Citizen_create env c w w' :
  k <> citizen_id c -> db w !! k = x ->
  Citizen_create env c w = Some w' -> db w' !! k = x.
Proof.
  intros Hk H. unfold Citizen_create. case_match; [discriminate|].
  intros [= <-]. apply frame_citizen_post_save. cbn [db emit].
  now rewrite lookup_insert_ne.
Qed.

Lemma frame_Affiliation_save env cid a w :
  k <> cid -> db w !! k = x -> db (Affiliation_save env cid a w) !! k = x.
Proof.
  intros Hk H. unfold Affiliation_save. case_match; [|exact H].
  cbn [db emit]. now rewrite lookup_insert_ne.
Qed.

Lemma frame_Affiliation_create env cid a w w' :
  k <> cid -> db w !! k = x ->
  Affiliation_create env cid a w = Some w' -> db w' !! k = x.
Proof.
  intros Hk H. unfold Affiliation_create.
  destruct (db w !! cid) as [[c [a0|]]|]; try discriminate.
  intros [= <-]. cbn [db emit]. now rewrite lookup_insert_ne.
Qed.

Lemma frame_Affiliation_delete cid w :
  k <> cid -> db w !! k = x -> db (Affiliation_delete cid w) !! k = x.
Proof.
  intros Hk H. unfold Affiliation_delete. case_match; [|exact H].
  cbn [db emit]. now rewrite lookup_insert_ne.
Qed.

Lemma frame_Citizen_delete cid w :
  k <> cid -> db w !! k = x -> db (Citizen_delete cid w) !! k = x.
Proof.
  intros Hk H. cbn [Citizen_delete db emit]. now rewrite lookup_delete_ne.
Qed.

Lemma frame_send_confirmation url cid st w :
  db w !! k = x -> db (send_confirmation url cid st w) !! k = x.
Proof. now rewrite db_send_confirmation. Qed.

Lemma frame_gate env cid w :
  k <> cid -> db w !! k = x ->
  db (snd (check_and_complete_transfer env cid w)) !! k = x.
Proof.
  intros Hk H. unfold check_and_complete_transfer, publish.
  repeat case_match; cbn [snd];
    auto 10 using frame_emit, frame_Citizen_save, frame_Affiliation_save,
      frame_send_confirmation.
Qed.

End Frame.

Create HintDb frame.

#[local] Hint Resolve frame_emit frame_publish frame_Citizen_save
  frame_Affiliation_save frame_Affiliation_delete frame_Citizen_delete
  frame_send_confirmation frame_gate : frame.

(** X15. Every operation touches one citizen only: the row stored, or not
    stored, under any id other than that of the citizen the operation is
    about is the same before and after, whatever the outside answers. *)
Theorem operations_leave_other_citizens :
  forall (env : Env) (op : Operation) (w : World) (k : string),
    k <> target_id op -> db (run env op w) !! k = db w !! k.
Proof.
  intros env op w k Hk. destruct op; cbn [run target_id] in *.
  - unfold register_citizen, publish.
    pose proof (validate_citizen_world env (cd_citizen_id d) w) as Hw1.
    destruct (validate_citizen env (cd_citizen_id d) w) as [[ex m] w1].
    cbn [snd] in Hw1. subst w1.
    repeat case_match; cbn [snd]; try reflexivity.
    all: repeat match goal with
         | Hc : Citizen_create _ _ ?w0 = Some _ |- _ =>
             eapply (frame_Citizen_create k (db w !! k)) in Hc;
             [|exact Hk|reflexivity]
         | Ha : Affiliation_create _ _ _ _ = Some _ |- _ =>
             eapply (frame_Affiliation_create k (db w !! k)) in Ha;
             [|exact Hk|eassumption]
         end; auto with frame.
  - unfold delete_affiliation, publish.
    repeat case_match; cbn [snd]; auto 12 with frame.
  - unfold receive_transfer, publish.
    repeat case_match; cbn [snd]; try reflexivity.
    all: repeat match goal with
         | Hc : Citizen_create _ _ ?w0 = Some _ |- _ =>
             eapply (frame_Citizen_create k (db w !! k)) in Hc;
             [|exact Hk|reflexivity]
         | Ha : Affiliation_create _ _ _ _ = Some _ |- _ =>
             eapply (frame_Affiliation_create k (db w !! k)) in Ha;
             [|exact Hk|eassumption]
         end; auto with frame.
  - unfold complete_transfer_after_documents, publish.
    repeat case_match; cbn [snd]; auto with frame.
    match goal with
    | Hg : check_and_complete_transfer ?e ?c ?w0 = (_, ?w1) |- _ =>
        replace w1 with (snd (check_and_complete_transfer e c w0))
          by now rewrite Hg
    end.
    auto 10 with frame.
  - now apply frame_gate.
  - now rewrite continue_transfer_db.
  - unfold send_transfer, publish.
    repeat case_match; cbn [snd]; auto 10 with frame.
  - unfold handle_transfer_confirmation, publish.
    repeat case_match; cbn [snd]; auto 10 with frame.
  - unfold handle_register_citizen_completed.
    repeat case_match; auto 10 with frame.
  - unfold handle_unregister_citizen_completed, publish.
    repeat case_match; cbn [snd]; rewrite ?continue_transfer_db;
      auto 10 with frame.
Qed.

(** X15 (witness). Answering for citizen 222 leaves citizen 111 alone. *)
Lemma operations_leave_other_citizens_witness :
  db (run env0 (OpRegisterCompleted "222" 201) world_111) !! "111" =
  db world_111 !! "111".
Proof.
  apply (operations_leave_other_citizens env0 (OpRegisterCompleted "222" 201)
           world_111 "111").
  discriminate.
Defined.

(** ** One confirmation at most *)

Lemma posts_emit e w :
  posts (emit e w) = (posts w + (if is_confirmation_post e then 1 else 0))%nat.
Proof.
  unfold posts, confirmation_posts, emit. cbn [log].
  rewrite List.filter_app, length_app. cbn [List.filter].
  now destruct (is_confirmation_post e).
Qed.

Lemma owed_emit cid e w : owed cid (emit e w) = owed cid w.
Proof. reflexivity. Qed.

Lemma owed_Citizen_save env cid c w :
  is_Some (db w !! cid) ->
  owed cid (Citizen_save env cid c w) = owed cid w
  /\ posts (Citizen_save env cid c w) = posts w.
Proof.
  intros [row Hrow]. rewrite (Citizen_save_found env cid w row Hrow).
  unfold owed, Affiliation_first, posts, confirmation_posts. cbn [db log].
  rewrite lookup_insert_eq, Hrow, List.filter_app. cbn.
  now rewrite app_nil_r.
Qed.

Lemma owed_Affiliation_save env cid a w :
  is_Some (db w !! cid) ->
  owed cid (Affiliation_save env cid a w) =
    (if bool_decide (status a = TRANSFERRING) then 1 else 0)%nat
  /\ posts (Affiliation_save env cid a w) = posts w.
Proof.
  intros [row Hrow]. rewrite (Affiliation_save_found env cid w row Hrow).
  unfold owed, Affiliation_first, posts, confirmation_posts. cbn [db log].
  rewrite lookup_insert_eq, List.filter_app. cbn.
  now rewrite app_nil_r.
Qed.

(** The gate never makes the sum of confirmations sent and confirmations
    owed grow. *)
Lemma gate_budget env cid w :
  (posts (snd (check_and_complete_transfer env cid w))
   + owed cid (snd (check_and_complete_transfer env cid w))
   <= posts w + owed cid w)%nat.
Proof.
  destruct (db w !! cid) as [row|] eqn:Hrow.
  2: { rewrite (gate_unknown env cid w Hrow). cbn [snd]. lia. }
  destruct (affiliation row) as [a|] eqn:Haff.
  2: { rewrite (gate_no_affiliation env cid w row Hrow Haff). cbn [snd]. lia. }
  destruct (decide (status a = TRANSFERRING)) as [Hst|Hst].
  2: { rewrite (gate_not_transferring env cid w row a Hrow Haff Hst).
       cbn [snd]. lia. }
  destruct (documents_ready a && is_verified (citizen row)) eqn:Hb.
  2: { rewrite (gate_waiting env cid w row a Hrow Haff Hst Hb). cbn [snd]. lia. }
  apply andb_true_iff in Hb as [Hd Hv].
  rewrite (gate_completes env cid w row a Hrow Haff Hst Hd Hv).
  assert (Ho : owed cid w = 1%nat).
  { unfold owed, Affiliation_first. rewrite Hrow. cbn. rewrite Haff. cbn.
    now rewrite bool_decide_eq_true_2. }
  rewrite Ho.
  destruct (Py.int cid) as [n|]; cbn [snd];
    unfold owed, Affiliation_first, posts, confirmation_posts, completed_row;
    cbn [db log]; rewrite lookup_insert_eq, !List.filter_app, !length_app;
    destruct (Py.truthy (transfer_confirmation_url a)); cbn;
    rewrite bool_decide_eq_false_2 by discriminate; lia.
Qed.

Lemma handle_event_budget env cid ev w :
  (posts (handle_event env cid ev w) + owed cid (handle_event env cid ev w)
   <= posts w + owed cid w)%nat.
Proof.
  destruct ev as [|code]; cbn [handle_event].
  - unfold complete_transfer_after_documents.
    destruct (db w !! cid) as [row|] eqn:Hrow; [|cbn [snd]; lia].
    destruct (affiliation row) as [a|] eqn:Haff; [|cbn [snd]; lia].
    assert (Hsave :
      (posts (Affiliation_save env cid (set_documents_ready true a) w)
       + owed cid (Affiliation_save env cid (set_documents_ready true a) w)
       <= posts w + owed cid w)%nat).
    { destruct (owed_Affiliation_save env cid (set_documents_ready true a) w)
        as [-> ->]; [eauto|].
      unfold owed, Affiliation_first. rewrite Hrow. cbn. rewrite Haff. cbn. lia. }
    destruct (Py.int cid) as [n|]; [|exact Hsave].
    unfold publish.
    match goal with
    | |- context [check_and_complete_transfer env cid ?w2] =>
        pose proof (gate_budget env cid w2) as Hg;
        destruct (check_and_complete_transfer env cid w2) as [r w3]
    end.
    cbn [snd] in *. rewrite posts_emit, owed_emit in Hg.
    cbn [is_confirmation_post] in Hg. lia.
  - unfold handle_register_citizen_completed.
    destruct (cid =? "")%string; [lia|].
    destruct (db w !! cid) as [row|] eqn:Hrow; [|lia].
    destruct (code =? 201).
    + match goal with
      | |- context [Citizen_save env cid ?c w] =>
          destruct (owed_Citizen_save env cid c w) as [Ho Hp]; [eauto|];
          pose proof (Citizen_save_found env cid w row Hrow c) as Hw1;
          set (w1 := Citizen_save env cid c w) in *
      end.
      destruct (Affiliation_first cid w1) as [a|] eqn:Ha; [|lia].
      destruct (decide (status a = TRANSFERRING)) as [Hst|Hst].
      * pose proof (gate_budget env cid w1). lia.
      * destruct (owed_Affiliation_save env cid (set_status AFFILIATED a) w1)
          as [-> ->]; [rewrite Hw1; cbn [db]; rewrite lookup_insert_eq; eauto|].
        cbn. rewrite bool_decide_eq_false_2 by discriminate. lia.
    + match goal with
      | |- context [Citizen_save env cid ?c w] =>
          destruct (owed_Citizen_save env cid c w) as [Ho Hp]; [eauto|];
          pose proof (Citizen_save_found env cid w row Hrow c) as Hw1;
          set (w1 := Citizen_save env cid c w) in *
      end.
      destruct (Affiliation_first cid w1) as [a|] eqn:Ha; [|lia].
      destruct (owed_Affiliation_save env cid (set_status FAILED a) w1)
        as [-> ->]; [rewrite Hw1; cbn [db]; rewrite lookup_insert_eq; eauto|].
      cbn. rewrite bool_decide_eq_false_2 by discriminate. lia.
Qed.

Lemma handle_events_budget cid evs : forall w,
  (posts (handle_events cid evs w) + owed cid (handle_events cid evs w)
   <= posts w + owed cid w)%nat.
Proof.
  induction evs as [|[env ev] rest IH]; intros w; [cbn; lia|].
  cbn [handle_events]. specialize (IH (handle_event env cid ev w)).
  pose proof (handle_event_budget env cid ev w). lia.
Qed.

(** X16. At most one confirmation, however the events arrive.  Over any
    sequence of documents-ready and registration-completed deliveries for one
    citizen (any order, any repetitions, any status codes, each delivery with
    its own outside answers), the number of confirmation POSTs made grows by
    one at most, and does not grow at all when the affiliation is not
    TRANSFERRING at the start. *)
Theorem events_confirm_at_most_once :
  forall (cid : string) (evs : list (Env * TransferEvent)) (w : World),
    (posts (handle_events cid evs w) <= posts w + owed cid w)%nat
    /\ (owed cid w <= 1)%nat.
Proof.
  intros cid evs w. split.
  - pose proof (handle_events_budget cid evs w). lia.
  - unfold owed. case_match; lia.
Qed.

(** X17. A refused registration ends an incoming transfer.  On a status
    code other than 201 the citizen is saved unverified with status "failed"
    and the affiliation FAILED, also when the affiliation was TRANSFERRING
    with documents ready: the gate is not consulted.  After that no delivery
    of documents-ready or registration-completed events, whatever their order
    and codes (a later 201 included), sends a confirmation to the source
    operator. *)
Theorem register_refused_ends_transfer :
  forall (env : Env) (cid : string) (code : Z) (w : World) (row : Row)
         (a : Affiliation) (evs : list (Env * TransferEvent)),
    db w !! cid = Some row -> affiliation row = Some a ->
    cid <> "" -> code <> 201 ->
    let w1 := handle_register_citizen_completed env cid code w in
    w1 =
      mkWorld
        (<[cid :=
             mkRow
               (set_updated_at (now env)
                  (set_verification false VERIFICATION_FAILED
                     (Some ("Registration failed with status code: "
                            ++ Py.str code)) (citizen row)))
               (Some (set_status_changed_at (now env) (set_status FAILED a)))]>
           (db w))
        (log w ++ [SaveCitizen cid; SaveAffiliation cid FAILED])
    /\ (posts (handle_events cid evs w1) <= posts w)%nat.
Proof.
  intros env cid code w row a evs Hrow Haff Hne Hcode w1.
  assert (Hw1 : w1 =
      mkWorld
        (<[cid :=
             mkRow
               (set_updated_at (now env)
                  (set_verification false VERIFICATION_FAILED
                     (Some ("Registration failed with status code: "
                            ++ Py.str code)) (citizen row)))
               (Some (set_status_changed_at (now env) (set_status FAILED a)))]>
           (db w))
        (log w ++ [SaveCitizen cid; SaveAffiliation cid FAILED])).
  { unfold w1, handle_register_citizen_completed.
    apply String.eqb_neq in Hne. apply Z.eqb_neq in Hcode.
    rewrite Hne, Hrow, Hcode.
    rewrite (Citizen_save_found env cid w row Hrow).
    erewrite Affiliation_first_found by (cbn [db]; apply lookup_insert_eq).
    cbn [affiliation]. rewrite Haff.
    erewrite Affiliation_save_found by (cbn [db]; apply lookup_insert_eq).
    cbn [db log citizen]. now rewrite insert_insert_eq, <- !app_assoc. }
  split; [exact Hw1|].
  pose proof (handle_events_budget cid evs w1) as Hb.
  assert (Ho : owed cid w1 = 0%nat).
  { rewrite Hw1. unfold owed, Affiliation_first. cbn [db].
    rewrite lookup_insert_eq. cbn.
    now rewrite bool_decide_eq_false_2 by discriminate. }
  assert (Hp : posts w1 = posts w).
  { rewrite Hw1. unfold posts, confirmation_posts. cbn [log].
    rewrite List.filter_app. cbn. now rewrite app_nil_r. }
  lia.
Qed.

(** X17 (witness). Citizen 555, ready to be confirmed, is refused with 501
    and accepted later. *)
Lemma register_refused_ends_transfer_witness :
  let w1 := handle_register_citizen_completed env0 "555" 501 world_555_ready in
  w1 =
    mkWorld
      (<[ "555" :=
           mkRow
             (set_updated_at (now env0)
                (set_verification false VERIFICATION_FAILED
                   (Some ("Registration failed with status code: "
                          ++ Py.str 501)) citizen_555))
             (Some (set_status_changed_at (now env0)
                      (set_status FAILED affiliation_555)))]>
         (db world_555_ready))
      (log world_555_ready ++ [SaveCitizen "555"; SaveAffiliation "555" FAILED])
  /\ (posts
        (handle_events "555"
           [(env0, EvRegisterCompleted 201); (env0, EvDocumentsReady)] w1)
      <= posts world_555_ready)%nat.
Proof.
  apply (register_refused_ends_transfer env0 "555" 501 world_555_ready
           (mkRow citizen_555 (Some affiliation_555)) affiliation_555
           [(env0, EvRegisterCompleted 201); (env0, EvDocumentsReady)]);
    [reflexivity|reflexivity|discriminate|discriminate].
Defined.

(** ** The documents-ready consumer *)



(** ** When the gate acts *)

(** X19. The gate writes only when both conditions hold.  If
    [check_and_complete_transfer] returns success, or returns a world other
    than the one it was given, then the citizen is stored with a
    TRANSFERRING affiliation, documents ready and verified; in every other
    case it returns failure and the very world it was given. *)
Theorem gate_acts_only_when_both_hold :
  forall (env : Env) (cid : string) (w : World),
    let '(r, w') := check_and_complete_transfer env cid w in
    (exists row a,
        db w !! cid = Some row /\ affiliation row = Some a /\
        status a = TRANSFERRING /\ documents_ready a = true /\
        is_verified (citizen row) = true)
    \/ (success r = false /\ w' = w).
Proof.
  intros env cid w.
  destruct (db w !! cid) as [row|] eqn:Hrow.
  2: { rewrite (gate_unknown env cid w Hrow). now right. }
  destruct (affiliation row) as [a|] eqn:Haff.
  2: { rewrite (gate_no_affiliation env cid w row Hrow Haff). now right. }
  destruct (decide (status a = TRANSFERRING)) as [Hst|Hst].
  2: { rewrite (gate_not_transferring env cid w row a Hrow Haff Hst).
       now right. }
  destruct (documents_ready a && is_verified (citizen row)) eqn:Hb.
  2: { rewrite (gate_waiting env cid w row a Hrow Haff Hst Hb). now right. }
  apply andb_true_iff in Hb as [Hd Hv].
  destruct (check_and_complete_transfer env cid w) as [r w'].
  left. exists row, a. auto.
Qed.

(** ** Unknown citizens *)

(** X20. An operation on a citizen that is not stored, other than the two
    that create one, does nothing at all: no write, no event, no call
    outside; the world returned is the world given. *)
Theorem operations_ignore_unknown_citizen :
  forall (env : Env) (op : Operation) (w : World),
    creates op = false -> db w !! target_id op = None ->
    run env op w = w.
Proof.
  intros env op w Hc Hnone.
  destruct op; try discriminate; cbn [run target_id] in *.
  - unfold delete_affiliation. now rewrite Hnone.
  - unfold complete_transfer_after_documents. now rewrite Hnone.
  - now rewrite (gate_unknown env cid w Hnone).
  - unfold continue_transfer_after_unregister. now rewrite Hnone.
  - unfold send_transfer. now rewrite Hnone.
  - unfold handle_transfer_confirmation. now rewrite Hnone.
  - unfold handle_register_citizen_completed. rewrite Hnone.
    now destruct (cid =? "")%string.
  - unfold handle_unregister_citizen_completed. rewrite Hnone.
    now destruct (um_id m =? "")%string.
Qed.

(** X20 (witness). The authority answers for a citizen nobody knows. *)
Lemma operations_ignore_unknown_citizen_witness :
  run env0 (OpUnregisterCompleted unregister_111_done) world_222_failed =
  world_222_failed.
Proof.
  apply (operations_ignore_unknown_citizen env0
           (OpUnregisterCompleted unregister_111_done) world_222_failed);
    reflexivity.
Defined.

(** ** An id that is no integer, on the way out *)


Lemma all_affiliated_insert m k c a :
  all_affiliated m -> all_affiliated (<[k := mkRow c (Some a)]> m).
Proof.
  intros Hm k' r. rewrite lookup_insert.
  case_decide; [intros [= <-]; cbn; eauto|apply Hm].
Qed.

Lemma all_affiliated_delete m k :
  all_affiliated m -> all_affiliated (delete k m).
Proof.
  intros Hm k' r Hk. apply lookup_delete_Some in Hk as [_ Hk]. eapply Hm, Hk.
Qed.

Ltac affiliated_leaf Hinv :=
  cbn [db log snd fst emit] in *;
  repeat match goal with
    | H : <[?k := _]> _ !! ?k = _ |- _ => rewrite lookup_insert_eq in H
    | H : Some _ = Some _ |- _ => injection H as H; try subst
    | H : Some _ = None |- _ => discriminate H
    | H : None = Some _ |- _ => discriminate H
    | Hr : ?m !! ?k = Some ?r, Ha : affiliation ?r = None |- _ =>
        let E := fresh in
        destruct (Hinv k r Hr) as [? E]; rewrite E in Ha; discriminate Ha
    end;
  cbn [db log snd fst emit affiliation citizen] in *;
  rewrite ?insert_insert_eq, ?delete_insert_eq;
  auto using all_affiliated_insert, all_affiliated_delete.

Lemma receive_transfer_all_or_nothing env p w :
  db (snd (receive_transfer env p w)) = db w
  \/ db (snd (receive_transfer env p w)) =
       <[str_id (td_id p) := received_row env p]> (db w).
Proof.
  unfold receive_transfer.
  destruct (db w !! str_id (td_id p)) as [row|] eqn:Hrow; [now left|].
  unfold Citizen_create. cbn [citizen_id]. rewrite Hrow.
  unfold citizen_post_save. cbn [is_registered andb].
  unfold Affiliation_create, emit. cbn [db log]. rewrite lookup_insert_eq.
  destruct (Py.int (str_id (td_id p))) as [n|].
  - right. cbn [snd publish emit db]. now rewrite insert_insert_eq.
  - left. cbn [snd Citizen_delete emit db].
    rewrite !delete_insert_eq. now apply delete_id.
Qed.

Lemma gate_all_affiliated env cid w :
  all_affiliated (db w) ->
  all_affiliated (db (snd (check_and_complete_transfer env cid w))).
Proof.
  intros Hinv.
  destruct (db w !! cid) as [row|] eqn:Hrow.
  2: { now rewrite (gate_unknown env cid w Hrow). }
  destruct (Hinv cid row Hrow) as [a Haff].
  rewrite (gate_db env cid w row a Hrow Haff).
  case_match; [|exact Hinv]. now apply all_affiliated_insert.
Qed.

(** X22. Every stored citizen has its affiliation, and every operation
    keeps it so, whatever the outside answers: the two creating operations
    store both records or none, the deleting ones remove the affiliation
    and the citizen together, and the others rewrite the records in place. *)
Theorem operations_keep_affiliations :
  forall (env : Env) (op : Operation) (w : World),
    all_affiliated (db w) -> all_affiliated (db (run env op w)).
Proof.
  intros env op w Hinv. destruct op; cbn [run].
  - destruct (register_citizen_all_or_nothing env d w) as [-> | ->];
      [exact Hinv|now apply all_affiliated_insert].
  - unfold delete_affiliation.
    destruct (db w !! cid) as [row|] eqn:Hrow; [|exact Hinv].
    destruct (Hinv cid row Hrow) as [a Haff].
    destruct (pending_deletion (citizen row)); [exact Hinv|].
    rewrite (Citizen_save_found env cid w row Hrow).
    erewrite Affiliation_first_found by (cbn [db]; apply lookup_insert_eq).
    cbn [affiliation]. rewrite Haff.
    erewrite Affiliation_save_found by (cbn [db]; apply lookup_insert_eq).
    cbn [db log citizen]. rewrite insert_insert_eq.
    destruct (Py.int cid) as [n|];
      [|cbn [snd db]; now apply all_affiliated_insert].
    unfold publish, emit. cbn [db log].
    destruct (broker_accepts env _);
      [cbn [snd db]; now apply all_affiliated_insert|].
    erewrite Citizen_save_found by (cbn [db]; apply lookup_insert_eq).
    erewrite Affiliation_save_found by (cbn [db]; apply lookup_insert_eq).
    cbn [snd db]. rewrite !insert_insert_eq. now apply all_affiliated_insert.
  - destruct (receive_transfer_all_or_nothing env p w) as [-> | ->];
      [exact Hinv|now apply all_affiliated_insert].
  - unfold complete_transfer_after_documents.
    destruct (db w !! cid) as [row|] eqn:Hrow; [|exact Hinv].
    destruct (affiliation row) as [a|] eqn:Haff; [|exact Hinv].
    rewrite (Affiliation_save_found env cid w row Hrow).
    destruct (Py.int cid) as [n|];
      [|cbn [snd db]; now apply all_affiliated_insert].
    unfold publish, emit. cbn [db log].
    match goal with
    | |- context [check_and_complete_transfer env cid ?w2] =>
        pose proof (gate_all_affiliated env cid w2) as Hg;
        destruct (check_and_complete_transfer env cid w2) as [r w3]
    end.
    cbn [snd db] in *. apply Hg. now apply all_affiliated_insert.
  - now apply gate_all_affiliated.
  - now rewrite continue_transfer_db.
  - unfold send_transfer, publish, Affiliation_save, emit.
    repeat (case_match; affiliated_leaf Hinv).
    all: affiliated_leaf Hinv.
  - unfold handle_transfer_confirmation, publish, Citizen_delete,
      Affiliation_delete, Affiliation_save, emit.
    repeat (case_match; affiliated_leaf Hinv).
    all: affiliated_leaf Hinv.
  - unfold handle_register_citizen_completed.
    destruct (cid =? "")%string; [exact Hinv|].
    destruct (db w !! cid) as [row|] eqn:Hrow; [|exact Hinv].
    destruct (Hinv cid row Hrow) as [a Haff].
    destruct (status_code =? 201);
      rewrite (Citizen_save_found env cid w row Hrow);
      (erewrite Affiliation_first_found by (cbn [db]; apply lookup_insert_eq));
      cbn [affiliation]; rewrite Haff.
    + destruct (decide (status a = TRANSFERRING)).
      * apply gate_all_affiliated. cbn [db]. now apply all_affiliated_insert.
      * unfold Affiliation_save, emit. cbn [db]. rewrite lookup_insert_eq.
        cbn [db]. rewrite insert_insert_eq. now apply all_affiliated_insert.
    + unfold Affiliation_save, emit. cbn [db]. rewrite lookup_insert_eq.
      cbn [db]. rewrite insert_insert_eq. now apply all_affiliated_insert.
  - unfold handle_unregister_citizen_completed.
    destruct (um_id m =? "")%string; [exact Hinv|].
    destruct (db w !! um_id m) as [row|] eqn:Hrow; [|exact Hinv].
    destruct (Hinv _ row Hrow) as [a Haff].
    destruct (um_success m).
    + destruct (is_transferring (Affiliation_first (um_id m) w));
        [now rewrite continue_transfer_db|].
      unfold Affiliation_first. rewrite Hrow. cbn [mbind option_bind].
      rewrite Haff.
      unfold publish, Citizen_delete, Affiliation_delete, emit.
      destruct (Py.int (um_id m)); cbn [snd db log]; rewrite Hrow;
        cbn [db log]; rewrite delete_insert_eq;
        now apply all_affiliated_delete.
    + rewrite (Citizen_save_found env _ w row Hrow).
      erewrite Affiliation_first_found by (cbn [db]; apply lookup_insert_eq).
      cbn [affiliation]. rewrite Haff.
      unfold Affiliation_save, emit. cbn [db]. rewrite lookup_insert_eq.
      cbn [db]. rewrite insert_insert_eq. now apply all_affiliated_insert.
Qed.

(** X22 (witness). Citizen 111 is deleted for good. *)
Lemma operations_keep_affiliations_witness :
  all_affiliated
    (db (run env0 (OpTransferConfirmation "111" 1) world_111_sent)).
Proof.
  apply (operations_keep_affiliations env0 (OpTransferConfirmation "111" 1)
           world_111_sent).
  intros cid row Hrow. cbn [db world_111_sent] in Hrow.
  apply lookup_singleton_Some in Hrow as [_ <-]. cbn. eauto.
Defined.

